(** * Text Studio: the rich-text editing page (src/app/page.tsx)

    A shallow embedding of the [Home] component: the text statistics computed
    by [stats], and the event handlers [exec], [handleSelection],
    [handleInput], [handleColorPick] and [reset] acting on the component's
    state and on the host document. *)

From Stdlib Require Import NArith Ascii String List Lia.
From stdpp Require Import base gmap strings list.
Import ListNotations.

(** * JavaScript strings

    A JavaScript string is a sequence of UTF-16 code units; [length] counts
    code units. *)

Definition jsstring : Type := list N.

(** An ASCII literal as a JavaScript string. *)
Definition js (s : string) : jsstring :=
  map N_of_ascii (list_ascii_of_string s).

(** Truthiness of a string: only the empty string is falsy. *)
Definition truthy (s : jsstring) : bool :=
  match s with
  | [] => false
  | _ :: _ => true
  end.

Module Text.

(** The class [\s] of a regular expression, which is also what
    [String.prototype.trim] strips: WhiteSpace (TAB, VT, FF, the Unicode
    space separators, ZWNBSP) and LineTerminator (LF, CR, LS, PS). *)
Definition isSpace (c : N) : bool :=
  ((9 <=? c) && (c <=? 13) || (c =? 32) || (c =? 160) || (c =? 5760)
   || (8192 <=? c) && (c <=? 8202) || (c =? 8232) || (c =? 8233)
   || (c =? 8239) || (c =? 8287) || (c =? 12288) || (c =? 65279))%N.

(** The class [[.!?]]. *)
Definition isTerminator (c : N) : bool :=
  ((c =? 46) || (c =? 33) || (c =? 63))%N.

Fixpoint dropWhile (p : N -> bool) (s : jsstring) : jsstring :=
  match s with
  | [] => []
  | c :: r => if p c then dropWhile p r else s
  end.

(** [s.trim()] *)
Definition trim (s : jsstring) : jsstring :=
  rev (dropWhile isSpace (rev (dropWhile isSpace s))).

(** [s.split(/[sep]+/)]: the pieces of [s] between the maximal runs of
    separator units. [tok] is the piece being read (reversed); [inRun] tells
    that the previous unit was a separator, whose run has already closed a
    piece. A separator run at the start or at the end of [s] leaves an empty
    piece there, and the empty string splits into one empty piece. *)
Fixpoint split_from (sep : N -> bool) (inRun : bool) (tok : list N)
    (s : jsstring) : list jsstring :=
  match s with
  | [] => [rev tok]
  | c :: r =>
      if sep c then
        if inRun then split_from sep true tok r
        else rev tok :: split_from sep true [] r
      else split_from sep false (c :: tok) r
  end.

Definition split (sep : N -> bool) (s : jsstring) : list jsstring :=
  split_from sep false [] s.

Record TextStatistics : Type := mkStats {
  words : nat;
  characters : nat;
  sentences : nat
}.

(** [const stats = useMemo(() => { ... }, [plain])] *)
Definition stats (plain : jsstring) : TextStatistics :=
  let words :=
    if truthy (trim plain)
    then length (List.filter truthy (split isSpace (trim plain)))
    else 0 in
  let characters := length plain in
  let sentences :=
    if truthy plain
    then length (List.filter truthy (split isTerminator plain))
    else 0 in
  {| words := words; characters := characters; sentences := sentences |}.

(** The number of non-empty segments of [s] delimited by separator runs,
    counted where each segment begins: at a unit that is not a separator and
    that follows a separator or starts the string. *)
Fixpoint segments_from (sep : N -> bool) (atBoundary : bool) (s : jsstring)
    : nat :=
  match s with
  | [] => 0
  | c :: r =>
      if sep c then segments_from sep true r
      else (if atBoundary then 1 else 0) + segments_from sep false r
  end.

Definition segments (sep : N -> bool) (s : jsstring) : nat :=
  segments_from sep true s.

End Text.

(** * The command registry *)

Inductive Command : Type :=
  | bold
  | italic
  | underline
  | strikeThrough
  | insertOrderedList
  | insertUnorderedList
  | justifyLeft
  | justifyCenter
  | justifyRight
  | justifyFull
  | removeFormat
  | formatBlock.

(** The two commands of [handleColorPick]. *)
Inductive ColorCommand : Type :=
  | foreColor
  | backColor.

(** The string a command is at run time: the key under which
    [activeCommands] holds its state. *)
Definition command_name (c : Command) : string :=
  match c with
  | bold => "bold"
  | italic => "italic"
  | underline => "underline"
  | strikeThrough => "strikeThrough"
  | insertOrderedList => "insertOrderedList"
  | insertUnorderedList => "insertUnorderedList"
  | justifyLeft => "justifyLeft"
  | justifyCenter => "justifyCenter"
  | justifyRight => "justifyRight"
  | justifyFull => "justifyFull"
  | removeFormat => "removeFormat"
  | formatBlock => "formatBlock"
  end.

Record ToolbarButton : Type := mkButton {
  label : jsstring;
  command : Command;
  value : option jsstring;
  title : jsstring
}.

Definition inlineButtons : list ToolbarButton :=
  [ mkButton (js "B") bold None (js "Bold (" ++ [8984%N] ++ js "/Ctrl + B)");
    mkButton (js "I") italic None (js "Italic (" ++ [8984%N] ++ js "/Ctrl + I)");
    mkButton (js "U") underline None
      (js "Underline (" ++ [8984%N] ++ js "/Ctrl + U)");
    mkButton (js "S") strikeThrough None (js "Strikethrough") ].

Definition listButtons : list ToolbarButton :=
  [ mkButton (js "OL") insertOrderedList None (js "Numbered list");
    mkButton (js "UL") insertUnorderedList None (js "Bullet list") ].

Definition alignmentButtons : list ToolbarButton :=
  [ mkButton [11207%N] justifyLeft None (js "Align left");
    mkButton [8646%N] justifyCenter None (js "Align center");
    mkButton [11208%N] justifyRight None (js "Align right");
    mkButton [8596%N; 65038%N] justifyFull None (js "Justify") ].

(** The buttons [handleSelection] walks through:
    [[...inlineButtons, ...listButtons, ...alignmentButtons]]. *)
Definition toggleButtons : list ToolbarButton :=
  inlineButtons ++ listButtons ++ alignmentButtons.

(** [blockOptions]: label and value of each entry of the block selector. *)
Definition blockOptions : list (jsstring * jsstring) :=
  [ (js "Paragraph", js "p");
    (js "Heading 1", js "h1");
    (js "Heading 2", js "h2");
    (js "Heading 3", js "h3");
    (js "Quote", js "blockquote") ].

(** The value of the block option labelled Paragraph. *)
Definition paragraph : jsstring := js "p".

Definition DEFAULT_MARKUP : jsstring :=
  js "<h2>Tell your story " ++ [10024%N] ++
  js "</h2><p>Highlight a sentence to format it or pick a color to make it pop. Everything you write appears instantly in the live preview.</p>".

(** * The host document and the component state *)

(** What a call to the host returns: a value, or an exception. *)
Inductive outcome (A : Type) : Type :=
  | Returned (a : A)
  | Thrown.
Arguments Returned {A} a.
Arguments Thrown {A}.

(** A DOM node, by identity. *)
Definition Node : Type := N.

(** [Selection]: only its [anchorNode] is read. *)
Record Selection : Type := mkSelection {
  anchorNode : option Node
}.

(** What the host document answers during one [selectionchange] event:
    [document.getSelection()], [editor.contains(node)],
    [document.queryCommandState(command)] and
    [document.queryCommandValue(command)]; the two queries may throw. *)
Record Document : Type := mkDocument {
  getSelection : option Selection;
  contains : Node -> bool;
  queryCommandState : Command -> outcome bool;
  queryCommandValue : Command -> outcome jsstring
}.

(** The calls made to the host editing engine, in the order made. *)
Inductive HostCall : Type :=
  | CallFocus
  | CallExecCommand (name : Command + ColorCommand) (arg : option jsstring)
  | CallQueryCommandState (c : Command)
  | CallQueryCommandValue (c : Command).

(** The editable [div]: its serialized content. *)
Record Editor : Type := mkEditor {
  innerHTML : jsstring
}.

(** The state of [Home]: the ref to the editable surface ([None] while it is
    not mounted), the six [useState] cells, and the trace of host calls. *)
Record State : Type := mkState {
  editorRef : option Editor;
  html : jsstring;
  plain : jsstring;
  activeCommands : gmap string bool;
  blockType : jsstring;
  foreground : jsstring;
  background : jsstring;
  hostCalls : list HostCall
}.

(** [activeCommands[button.command]] as the toolbar reads it: a missing key
    is [undefined], which is falsy. *)
Definition isActive (st : State) (c : Command) : bool :=
  default false (activeCommands st !! command_name c).

(** Handlers run in a state monad with exceptions; an exception keeps the
    state reached when it was thrown. *)
Definition M (A : Type) : Type := State -> outcome A * State.

Definition ret {A : Type} (a : A) : M A := fun st => (Returned a, st).

Definition bind {A B : Type} (m : M A) (k : A -> M B) : M B :=
  fun st =>
    match m st with
    | (Returned a, st') => k a st'
    | (Thrown, st') => (Thrown, st')
    end.

(** [try { m } catch { h }] *)
Definition try_catch {A : Type} (m : M A) (h : M A) : M A :=
  fun st =>
    match m st with
    | (Returned a, st') => (Returned a, st')
    | (Thrown, st') => h st'
    end.

Declare Scope handler_scope.
Delimit Scope handler_scope with handler.
Notation "'do' x <- m ; k" := (bind m (fun x => k))
  (at level 10, x name, m at level 100, k at level 200) : handler_scope.
Notation "'run' m ; k" := (bind m (fun _ => k))
  (at level 10, m at level 100, k at level 200) : handler_scope.
Local Open Scope handler_scope.

Fixpoint foldM {A B : Type} (f : B -> A -> M B) (b : B) (l : list A) : M B :=
  match l with
  | [] => ret b
  | a :: r => do b' <- f b a; foldM f b' r
  end.

Definition modify (f : State -> State) : M unit :=
  fun st => (Returned tt, f st).

Definition getEditor : M (option Editor) := fun st => (Returned (editorRef st), st).

Definition setHtml (v : jsstring) : M unit :=
  modify (fun st => mkState (editorRef st) v (plain st) (activeCommands st)
    (blockType st) (foreground st) (background st) (hostCalls st)).

Definition setPlain (v : jsstring) : M unit :=
  modify (fun st => mkState (editorRef st) (html st) v (activeCommands st)
    (blockType st) (foreground st) (background st) (hostCalls st)).

Definition setActiveCommands (v : gmap string bool) : M unit :=
  modify (fun st => mkState (editorRef st) (html st) (plain st) v
    (blockType st) (foreground st) (background st) (hostCalls st)).

Definition setBlockType (v : jsstring) : M unit :=
  modify (fun st => mkState (editorRef st) (html st) (plain st)
    (activeCommands st) v (foreground st) (background st) (hostCalls st)).

Definition setForeground (v : jsstring) : M unit :=
  modify (fun st => mkState (editorRef st) (html st) (plain st)
    (activeCommands st) (blockType st) v (background st) (hostCalls st)).

Definition setBackground (v : jsstring) : M unit :=
  modify (fun st => mkState (editorRef st) (html st) (plain st)
    (activeCommands st) (blockType st) (foreground st) v (hostCalls st)).

(** [editor.innerHTML = v], on the element [editorRef] points to. *)
Definition setInnerHTML (v : jsstring) : M unit :=
  modify (fun st => mkState (option_map (fun _ => mkEditor v) (editorRef st))
    (html st) (plain st) (activeCommands st) (blockType st) (foreground st)
    (background st) (hostCalls st)).

Definition record (c : HostCall) : M unit :=
  modify (fun st => mkState (editorRef st) (html st) (plain st)
    (activeCommands st) (blockType st) (foreground st) (background st)
    (hostCalls st ++ [c])).

(** [editor.focus()] *)
Definition focus : M unit := record CallFocus.

(** [document.queryCommandState(c)] *)
Definition callQueryCommandState (doc : Document) (c : Command) : M bool :=
  run record (CallQueryCommandState c);
  fun st => (queryCommandState doc c, st).

(** [document.queryCommandValue(c)] *)
Definition callQueryCommandValue (doc : Document) (c : Command) : M jsstring :=
  run record (CallQueryCommandValue c);
  fun st => (queryCommandValue doc c, st).

(** [.replace(/[<>]/g, "")]: every [<] and [>] is removed. *)
Definition removeAngleBrackets (s : jsstring) : jsstring :=
  List.filter (fun c => negb ((c =? 60) || (c =? 62))%N) s.

(** [.toLowerCase()] on a text of ASCII units, which is what the tag names
    the host reports are made of: the letters A to Z go to a to z, other
    code units are kept. For a text with a unit outside ASCII see
    [Unicode.toLowerCase]. *)
Definition toLowerCase (s : jsstring) : jsstring :=
  map (fun c => if ((65 <=? c) && (c <=? 90))%N then (c + 32)%N else c) s.

(** * The handlers *)

Section Handlers.

(** The host editing engine: what [document.execCommand(name, false, arg)]
    makes of the surface content, and the rendered text [editor.innerText]
    of a content. *)
Variable execCommandEffect :
  Command + ColorCommand -> option jsstring -> jsstring -> jsstring.
Variable innerTextOf : jsstring -> jsstring.

(** [document.execCommand(name, false, arg)] *)
Definition execCommand (name : Command + ColorCommand) (arg : option jsstring)
    : M unit :=
  run record (CallExecCommand name arg);
  modify (fun st =>
    mkState
      (option_map (fun ed => mkEditor (execCommandEffect name arg (innerHTML ed)))
         (editorRef st))
      (html st) (plain st) (activeCommands st) (blockType st) (foreground st)
      (background st) (hostCalls st)).

Definition updateStateFromEditor : M unit :=
  do editor <- getEditor;
  match editor with
  | None => ret tt
  | Some editor =>
      run setHtml (innerHTML editor);
      setPlain (innerTextOf (innerHTML editor))
  end.

Definition exec (command : Command) (value : option jsstring) : M unit :=
  do editor <- getEditor;
  match editor with
  | None => ret tt
  | Some _ =>
      run focus;
      run (match command with
           | formatBlock =>
               execCommand (inl command) (Some (default (js "p") value))
           | _ => execCommand (inl command) value
           end);
      updateStateFromEditor
  end.

(** One turn of the [forEach] of [handleSelection]. *)
Definition queryButton (doc : Document) (nextState : gmap string bool)
    (btn : ToolbarButton) : M (gmap string bool) :=
  try_catch
    (do b <- callQueryCommandState doc (command btn);
     ret (<[command_name (command btn) := b]> nextState))
    (ret (<[command_name (command btn) := false]> nextState)).

(** The [try] block that reads the block format, and its [catch]. *)
Definition queryBlock (doc : Document) : M jsstring :=
  try_catch
    (do queried <- callQueryCommandValue doc formatBlock;
     if truthy queried
     then ret (toLowerCase (removeAngleBrackets queried))
     else ret (js "p"))
    (ret (js "p")).

Definition handleSelection (doc : Document) : M unit :=
  do editor <- getEditor;
  match editor, getSelection doc with
  | None, _ | _, None => setActiveCommands ∅
  | Some _, Some selection =>
      let withinEditor :=
        match anchorNode selection with
        | None => false
        | Some node => contains doc node
        end in
      if negb withinEditor then setActiveCommands ∅
      else
        do nextState <- foldM (queryButton doc) ∅ toggleButtons;
        do currentBlock <- queryBlock doc;
        let currentBlock :=
          if decide (currentBlock = js "body") then js "p" else currentBlock in
        run setActiveCommands nextState;
        setBlockType currentBlock
  end.

Definition handleInput : M unit := updateStateFromEditor.

Definition handleColorPick (command : ColorCommand) (color : jsstring)
    : M unit :=
  do editor <- getEditor;
  match editor with
  | None => ret tt
  | Some _ =>
      run focus;
      run execCommand (inr command) (Some color);
      run updateStateFromEditor;
      match command with
      | foreColor => setForeground color
      | backColor => setBackground color
      end
  end.

Definition reset : M unit :=
  do editor <- getEditor;
  match editor with
  | None => ret tt
  | Some _ =>
      run setInnerHTML DEFAULT_MARKUP;
      run updateStateFromEditor;
      run setForeground (js "#1f2933");
      run setBackground (js "#ffffff");
      run setActiveCommands ∅;
      setBlockType (js "p")
  end.

(** The user typing into the surface: the host replaces its content, then
    fires [onInput]. *)
Definition typeInput (content : jsstring) : M unit :=
  run setInnerHTML content;
  handleInput.

End Handlers.

(** * Vocabulary of the statements *)

(** The state with more host calls on its trace. *)
Definition withCalls (st : State) (calls : list HostCall) : State :=
  mkState (editorRef st) (html st) (plain st) (activeCommands st)
    (blockType st) (foreground st) (background st) (hostCalls st ++ calls).

(** The state with another selection snapshot. *)
Definition withSnapshot (st : State) (active : gmap string bool)
    (block : jsstring) : State :=
  mkState (editorRef st) (html st) (plain st) active block (foreground st)
    (background st) (hostCalls st).

(** What [handleSelection] stores for a command: the state the host
    answers, [false] if the query throws. *)
Definition answered (doc : Document) (c : Command) : bool :=
  match queryCommandState doc c with
  | Returned b => b
  | Thrown => false
  end.

Definition answers (doc : Document) (m : gmap string bool)
    (l : list ToolbarButton) : gmap string bool :=
  foldl (fun m btn => <[command_name (command btn) := answered doc (command btn)]> m)
    m l.

(** The block type [handleSelection] stores, from what the block-format
    query gives. *)
Definition blockOf (doc : Document) : jsstring :=
  match queryCommandValue doc formatBlock with
  | Returned queried =>
      if truthy queried then
        let tag := toLowerCase (removeAngleBrackets queried) in
        if decide (tag = js "body") then js "p" else tag
      else js "p"
  | Thrown => js "p"
  end.

(** The selection lies in the surface: the surface is mounted, there is a
    selection, it has an anchor node, and the surface contains that node. *)
Definition insideSurface (doc : Document) (st : State) : Prop :=
  exists ed sel node,
    editorRef st = Some ed /\ getSelection doc = Some sel
    /\ anchorNode sel = Some node /\ contains doc node = true.

(** No surface is mounted, or there is no selection, or the selection has no
    anchor node in the surface. *)
Definition outsideSurface (doc : Document) (st : State) : Prop :=
  editorRef st = None
  \/ getSelection doc = None
  \/ exists sel, getSelection doc = Some sel
       /\ match anchorNode sel with
          | Some node => contains doc node = false
          | None => True
          end.

Definition toggleCommands : list Command := map command toggleButtons.

(** ** Sample states and documents *)

(** A mounted surface holding a heading, with the selection snapshot of a
    bold selection in it and a picked text color. *)
Definition headingState : State :=
  mkState (Some (mkEditor (js "<h1>Title</h1>"))) (js "<h1>Title</h1>")
    (js "Title") {[ "bold" := true ]} (js "h1") (js "#ff0000") (js "#ffffff") [].

(** The same component state before the surface is mounted. *)
Definition unmountedState : State :=
  mkState None (js "<h1>Title</h1>") (js "Title") {[ "bold" := true ]}
    (js "h1") (js "#ff0000") (js "#ffffff") [].

(** A document without a selection. *)
Definition noSelection : Document :=
  mkDocument None (fun _ => false) (fun _ => Returned false)
    (fun _ => Returned (js "h1")).

(** A document whose selection is anchored in the surface, answering the
    block-format query with [block]; bold is active, the italic query
    throws. *)
Definition selectionInside (block : outcome jsstring) : Document :=
  mkDocument (Some (mkSelection (Some 1%N))) (fun _ => true)
    (fun c => match c with
              | bold => Returned true
              | italic => Thrown
              | _ => Returned false
              end)
    (fun _ => block).

(** A host engine that leaves the content as it is and renders a content as
    itself. *)
Definition keepContent (name : Command + ColorCommand) (arg : option jsstring)
    (content : jsstring) : jsstring := content.
Definition rawText (content : jsstring) : jsstring := content.

(** The reported value without a [<] in front and a [>] at the end. *)
Definition stripDelimiters (s : jsstring) : jsstring :=
  let s1 := match s with
            | c :: r => if (c =? 60)%N then r else s
            | [] => []
            end in
  match rev s1 with
  | c :: r => if (c =? 62)%N then rev r else s1
  | [] => []
  end.

(** * The selection handler with the case mapping of the runtime

    [String.prototype.toLowerCase] follows the Unicode case mapping. On a
    text of ASCII units that is: the letters A to Z go to a to z and every
    other unit stays. What it makes of a text that holds a unit outside
    ASCII is left to the runtime, and is a parameter here. *)

(** The lowering of a text of ASCII units. *)
Definition asciiLowerCase : jsstring -> jsstring := toLowerCase.

Module Unicode.

Section CaseMapping.

(** [String.prototype.toLowerCase] on the texts that hold a unit outside
    ASCII. *)
Variable unicodeLower : jsstring -> jsstring.

Definition isAscii (s : jsstring) : bool :=
  forallb (fun c => (c <? 128)%N) s.

(** [.toLowerCase()] *)
Definition toLowerCase (s : jsstring) : jsstring :=
  if isAscii s then asciiLowerCase s else unicodeLower s.

(** The [try] block that reads the block format, and its [catch]. *)
Definition queryBlock (doc : Document) : M jsstring :=
  try_catch
    (do queried <- callQueryCommandValue doc formatBlock;
     if truthy queried
     then ret (toLowerCase (removeAngleBrackets queried))
     else ret (js "p"))
    (ret (js "p")).

Definition handleSelection (doc : Document) : M unit :=
  do editor <- getEditor;
  match editor, getSelection doc with
  | None, _ | _, None => setActiveCommands ∅
  | Some _, Some selection =>
      let withinEditor :=
        match anchorNode selection with
        | None => false
        | Some node => contains doc node
        end in
      if negb withinEditor then setActiveCommands ∅
      else
        do nextState <- foldM (queryButton doc) ∅ toggleButtons;
        do currentBlock <- queryBlock doc;
        let currentBlock :=
          if decide (currentBlock = js "body") then js "p" else currentBlock in
        run setActiveCommands nextState;
        setBlockType currentBlock
  end.

(** The block type as the specification words it: the reported value
    without a [<] in front and a [>] at the end, in lower case, and the
    paragraph value in place of the root container [body]. *)
Definition normalizedBlock (reported : jsstring) : jsstring :=
  let tag := toLowerCase (stripDelimiters reported) in
  if decide (tag = js "body") then paragraph else tag.

(** The block type the handler derives from a non-empty reported value:
    every [<] and [>] removed, in lower case, and the paragraph value in
    place of [body]. *)
Definition derivedBlock (reported : jsstring) : jsstring :=
  let tag := toLowerCase (removeAngleBrackets reported) in
  if decide (tag = js "body") then paragraph else tag.

(** The block type [handleSelection] stores, from what the block-format
    query gives. *)
Definition blockOf (doc : Document) : jsstring :=
  match queryCommandValue doc formatBlock with
  | Returned queried =>
      if truthy queried then derivedBlock queried else js "p"
  | Thrown => js "p"
  end.

End CaseMapping.

End Unicode.

(** The state [reset] leaves when the surface is mounted. *)
Definition resetState (innerTextOf : jsstring -> jsstring)
    (calls : list HostCall) : State :=
  mkState (Some (mkEditor DEFAULT_MARKUP)) DEFAULT_MARKUP
    (innerTextOf DEFAULT_MARKUP) ∅ paragraph (js "#1f2933") (js "#ffffff")
    calls.

(** * The starter plain text *)

(** After a [<]: the number of units that [[^>]+>] takes, if it matches.
    [seen] counts the units other than [>] read so far; the first [>] ends
    the match, which needs one unit before it. *)
Fixpoint tagLength (seen : nat) (s : jsstring) : option nat :=
  match s with
  | [] => None
  | c :: r =>
      if (c =? 62)%N then
        match seen with
        | O => None
        | S _ => Some (S seen)
        end
      else tagLength (S seen) r
  end.

(** [s.replace(/<[^>]+>/g, " ")], read from left to right: where a match
    starts, a space is written and the [skip] units of the match after its
    [<] are passed over; any other unit is kept. *)
Fixpoint replaceTags_from (skip : nat) (s : jsstring) : jsstring :=
  match s with
  | [] => []
  | c :: r =>
      match skip with
      | S k => replaceTags_from k r
      | O =>
          if (c =? 60)%N then
            match tagLength 0 r with
            | Some n => 32%N :: replaceTags_from n r
            | None => c :: replaceTags_from 0 r
            end
          else c :: replaceTags_from 0 r
      end
  end.

Definition replaceTags (s : jsstring) : jsstring := replaceTags_from 0 s.

(** [s.replace(/\s+/g, " ")]: one space for each maximal run of white
    space; [inRun] tells that the run at hand already gave its space. *)
Fixpoint collapse_from (inRun : bool) (s : jsstring) : jsstring :=
  match s with
  | [] => []
  | c :: r =>
      if Text.isSpace c then
        if inRun then collapse_from true r else 32%N :: collapse_from true r
      else c :: collapse_from false r
  end.

Definition collapseSpaces (s : jsstring) : jsstring := collapse_from false s.

Definition DEFAULT_PLAIN : jsstring :=
  Text.trim (collapseSpaces (replaceTags DEFAULT_MARKUP)).

(** A text whose white space is single spaces: every white-space unit is
    U+0020 and none follows another ([afterSpace] tells that the unit before
    was one). *)
Fixpoint singleSpaced_from (afterSpace : bool) (s : jsstring) : bool :=
  match s with
  | [] => true
  | c :: r =>
      if Text.isSpace c
      then (c =? 32)%N && negb afterSpace && singleSpaced_from true r
      else singleSpaced_from false r
  end.

Definition singleSpaced (s : jsstring) : bool := singleSpaced_from false s.

(** The last unit of the text, if any, is not white space. *)
Fixpoint endsWithText (s : jsstring) : bool :=
  match s with
  | [] => true
  | c :: r =>
      match r with
      | [] => negb (Text.isSpace c)
      | _ :: _ => endsWithText r
      end
  end.

(** * Mounting and the toolbar *)

(** The state of the first render: the [useState] initial values, the ref
    not yet attached. *)
Definition initialState : State :=
  mkState None DEFAULT_MARKUP DEFAULT_PLAIN ∅ (js "p") (js "#1f2933")
    (js "#ffffff") [].

(** The commit of the first render: the host creates the empty editable
    [div] and the ref is attached to it. *)
Definition attachSurface : M unit :=
  modify (fun st => mkState (Some (mkEditor [])) (html st) (plain st)
    (activeCommands st) (blockType st) (foreground st) (background st)
    (hostCalls st)).

(** The mount effect: [if (editor) { editor.innerHTML = DEFAULT_MARKUP; }] *)
Definition mountEffect : M unit :=
  do editor <- getEditor;
  match editor with
  | Some _ => setInnerHTML DEFAULT_MARKUP
  | None => ret tt
  end.

(** What the user does with the rendered controls: choose a block option,
    click a toggle button, pick a color in one of the two inputs, click
    Clear, click Reset, type into the surface, or change the selection. *)
Inductive UiEvent : Type :=
  | ChangeBlock (optionValue : jsstring)
  | ClickButton (button : ToolbarButton)
  | PickColor (command : ColorCommand) (color : jsstring)
  | ClickClear
  | ClickReset
  | Input (content : jsstring)
  | SelectionChange (doc : Document).

(** The controls that are rendered: a button of the three groups, an option
    of [blockOptions]. *)
Definition rendered (ev : UiEvent) : Prop :=
  match ev with
  | ChangeBlock optionValue => In optionValue (map snd blockOptions)
  | ClickButton button => In button toggleButtons
  | _ => True
  end.

Section Toolbar.

Variable execCommandEffect :
  Command + ColorCommand -> option jsstring -> jsstring -> jsstring.
Variable innerTextOf : jsstring -> jsstring.

(** The handler each control is wired to. *)
Definition dispatch (ev : UiEvent) : M unit :=
  match ev with
  | ChangeBlock optionValue =>
      exec execCommandEffect innerTextOf formatBlock
        (Some ([60%N] ++ optionValue ++ [62%N]))
  | ClickButton button =>
      exec execCommandEffect innerTextOf (command button) (value button)
  | PickColor command color =>
      handleColorPick execCommandEffect innerTextOf command color
  | ClickClear => exec execCommandEffect innerTextOf removeFormat None
  | ClickReset => reset innerTextOf
  | Input content => typeInput innerTextOf content
  | SelectionChange doc => handleSelection doc
  end.

Fixpoint dispatchAll (evs : list UiEvent) : M unit :=
  match evs with
  | [] => ret tt
  | ev :: r => run dispatch ev; dispatchAll r
  end.

End Toolbar.

(** The state once the component is mounted. *)
Definition mountedState : State :=
  snd ((run attachSurface; mountEffect) initialState).

(** ** Vocabulary of the toolbar statements *)

(** The state a command leaves on a mounted surface with content
    [innerHTML ed]: the surface is focused, the engine runs the command on
    the content, and [html] and [plain] are read back from the surface. *)
Definition afterCommand
    (execCommandEffect :
       Command + ColorCommand -> option jsstring -> jsstring -> jsstring)
    (innerTextOf : jsstring -> jsstring)
    (name : Command + ColorCommand) (arg : option jsstring)
    (ed : Editor) (st : State) : State :=
  let content := execCommandEffect name arg (innerHTML ed) in
  mkState (Some (mkEditor content)) content (innerTextOf content)
    (activeCommands st) (blockType st) (foreground st) (background st)
    (hostCalls st ++ [CallFocus; CallExecCommand name arg]).

(** The state with other colors. *)
Definition withColors (st : State) (fg bg : jsstring) : State :=
  mkState (editorRef st) (html st) (plain st) (activeCommands st)
    (blockType st) fg bg (hostCalls st).


(** In a trace, every [execCommand] comes right after a [focus]. *)
Fixpoint execsFocused (afterFocus : bool) (calls : list HostCall) : bool :=
  match calls with
  | [] => true
  | CallFocus :: r => execsFocused true r
  | CallExecCommand _ _ :: r => afterFocus && execsFocused false r
  | _ :: r => execsFocused false r
  end.

(** A call is a query. *)
Definition isQuery (call : HostCall) : bool :=
  match call with
  | CallQueryCommandState _ | CallQueryCommandValue _ => true
  | _ => false
  end.

(** The keys [handleSelection] writes. *)
Definition toggleNames : gset string :=
  list_to_set (map command_name toggleCommands).

(** An [execCommand] call as the rendered controls make it: [formatBlock]
    with an option value between [<] and [>], a color command with a color,
    any other command without a value. *)
Definition fromToolbar (call : HostCall) : Prop :=
  match call with
  | CallExecCommand (inl formatBlock) arg =>
      exists optionValue,
        In optionValue (map snd blockOptions)
        /\ arg = Some ([60%N] ++ optionValue ++ [62%N])
  | CallExecCommand (inl _) arg => arg = None
  | CallExecCommand (inr _) arg => exists color, arg = Some color
  | _ => True
  end.

(** The value [exec] hands to the engine. *)
Definition execArgument (command : Command) (value : option jsstring)
    : option jsstring :=
  match command with
  | formatBlock => Some (default (js "p") value)
  | _ => value
  end.

(** The queries of one selection change in the surface. *)
Definition selectionQueries : list HostCall :=
  map CallQueryCommandState toggleCommands ++ [CallQueryCommandValue formatBlock].

(** What one rendered control can make of the state. *)
Inductive transition
    (execCommandEffect :
       Command + ColorCommand -> option jsstring -> jsstring -> jsstring)
    (innerTextOf : jsstring -> jsstring) (st : State) : State -> Prop :=
  | transition_none : transition execCommandEffect innerTextOf st st
  | transition_command (ed : Editor) (command : Command)
      (arg : option jsstring) :
      editorRef st = Some ed ->
      fromToolbar (CallExecCommand (inl command) arg) ->
      transition execCommandEffect innerTextOf st
        (afterCommand execCommandEffect innerTextOf (inl command) arg ed st)
  | transition_foreground (ed : Editor) (color : jsstring) :
      editorRef st = Some ed ->
      transition execCommandEffect innerTextOf st
        (withColors
           (afterCommand execCommandEffect innerTextOf (inr foreColor)
              (Some color) ed st)
           color (background st))
  | transition_background (ed : Editor) (color : jsstring) :
      editorRef st = Some ed ->
      transition execCommandEffect innerTextOf st
        (withColors
           (afterCommand execCommandEffect innerTextOf (inr backColor)
              (Some color) ed st)
           (foreground st) color)
  | transition_input (ed : Editor) (content : jsstring) :
      editorRef st = Some ed ->
      transition execCommandEffect innerTextOf st
        (mkState (Some (mkEditor content)) content (innerTextOf content)
           (activeCommands st) (blockType st) (foreground st) (background st)
           (hostCalls st))
  | transition_reset (ed : Editor) :
      editorRef st = Some ed ->
      transition execCommandEffect innerTextOf st
        (resetState innerTextOf (hostCalls st))
  | transition_selected (ed : Editor) (doc : Document) :
      editorRef st = Some ed ->
      transition execCommandEffect innerTextOf st
        (withSnapshot (withCalls st selectionQueries)
           (answers doc ∅ toggleButtons) (blockOf doc))
  | transition_deselected :
      transition execCommandEffect innerTextOf st
        (withSnapshot st ∅ (blockType st)).

(** A session at the toolbar, for the examples. *)
Definition boldButton : ToolbarButton :=
  mkButton (js "B") bold None (js "Bold (" ++ [8984%N] ++ js "/Ctrl + B)").

Definition sampleSession : list UiEvent :=
  [ SelectionChange (selectionInside (Returned (js "<H2>")));
    ClickButton boldButton;
    ChangeBlock (js "h1");
    PickColor foreColor (js "#ff0000");
    Input (js "<h1>Hi</h1>");
    ClickClear;
    SelectionChange noSelection;
    ClickReset;
    PickColor backColor (js "#00ff00") ].

(** * Text statistics: proofs *)

Module TextFacts.
Import Text.

Lemma truthy_rev (s : jsstring) : truthy (rev s) = truthy s.
Proof.
  destruct s as [|c r]; [reflexivity|].
  simpl. destruct (rev r); reflexivity.
Qed.

Lemma truthy_false_nil (s : jsstring) : truthy s = false <-> s = [].
Proof. destruct s; simpl; split; congruence. Qed.

(** Counting the non-empty pieces of a split from any point of the scan: the
    piece being read counts once if it has a unit already. *)
Lemma split_from_segments (sep : N -> bool) (s : jsstring) :
  forall (inRun : bool) (tok : list N),
    (inRun = true -> tok = []) ->
    length (List.filter truthy (split_from sep inRun tok s))
    = segments_from sep (negb (truthy tok)) s
      + (if truthy tok then 1 else 0).
Proof.
  induction s as [|c r IH]; intros inRun tok Hrun; simpl.
  - rewrite truthy_rev. destruct (truthy tok); reflexivity.
  - destruct (sep c) eqn:Hc.
    + destruct inRun.
      * rewrite (Hrun eq_refl). exact (IH true [] (fun _ => eq_refl)).
      * simpl. rewrite truthy_rev.
        pose proof (IH true [] (fun _ => eq_refl)) as E. simpl in E.
        destruct (truthy tok); simpl; lia.
    + pose proof (IH false (c :: tok)) as E. simpl in E.
      destruct (truthy tok); simpl; rewrite E by discriminate; lia.
Qed.

Lemma split_segments (sep : N -> bool) (s : jsstring) :
  length (List.filter truthy (split sep s)) = segments sep s.
Proof.
  unfold split, segments.
  rewrite (split_from_segments sep s false []); [simpl; lia | discriminate].
Qed.

(** A string holding a unit that is not a separator has a segment. *)
Lemma segments_pos (sep : N -> bool) (s : jsstring) (c : N) :
  In c s -> sep c = false -> 0 < segments sep s.
Proof.
  unfold segments. induction s as [|d r IH]; simpl; [tauto|].
  intros [-> | Hin] Hc.
  - rewrite Hc. lia.
  - destruct (sep d); [auto | lia].
Qed.

Lemma dropWhile_head (p : N -> bool) (s : jsstring) (c : N) (r : jsstring) :
  dropWhile p s = c :: r -> p c = false.
Proof.
  induction s as [|d u IH]; simpl; [discriminate|].
  destruct (p d) eqn:Hd; [assumption|].
  intros [= -> ->]. assumption.
Qed.

(** What [trim] leaves, if anything, holds a unit that is not white space. *)
Lemma trim_holds_text (s : jsstring) :
  trim s <> [] -> exists c, In c (trim s) /\ isSpace c = false.
Proof.
  unfold trim.
  destruct (dropWhile isSpace (rev (dropWhile isSpace s))) as [|c r] eqn:E.
  - intros H. exfalso. apply H. reflexivity.
  - intros _. exists c. split.
    + apply in_rev. rewrite rev_involutive. left. reflexivity.
    + exact (dropWhile_head _ _ _ _ E).
Qed.

Lemma words_segments (t : jsstring) :
  words (stats t) = segments isSpace (trim t).
Proof.
  unfold stats; simpl.
  destruct (truthy (trim t)) eqn:E.
  - apply split_segments.
  - apply truthy_false_nil in E. rewrite E. reflexivity.
Qed.

Lemma sentences_segments (t : jsstring) :
  sentences (stats t) = segments isTerminator t.
Proof.
  unfold stats; simpl.
  destruct (truthy t) eqn:E.
  - apply split_segments.
  - apply truthy_false_nil in E. rewrite E. reflexivity.
Qed.

(** C3: the word count is the number of non-empty white-space-delimited
    tokens of the trimmed text, it is 0 exactly when the trimmed text is
    empty, and the character count is the length of the text as given. *)
Theorem stats_words_characters (t : jsstring) :
  (words (stats t) = 0 <-> trim t = [])
  /\ words (stats t) = segments isSpace (trim t)
  /\ characters (stats t) = length t.
Proof.
  split; [|split; [apply words_segments | reflexivity]].
  rewrite words_segments. split.
  - intros H0. destruct (trim t) as [|c r] eqn:E; [reflexivity|].
    destruct (trim_holds_text t) as (d & Hin & Hd); [congruence|].
    rewrite E in Hin. pose proof (segments_pos isSpace _ d Hin Hd). lia.
  - intros ->. reflexivity.
Qed.

(** C4: the sentence count is the number of non-empty segments between runs
    of [.], [!] and [?], 0 for the empty text, and 0, 1, 3 and 1 on the four
    sample texts. *)
Theorem stats_sentences :
  (forall t : jsstring, sentences (stats t) = segments isTerminator t)
  /\ sentences (stats []) = 0
  /\ sentences (stats (js "Hello.")) = 1
  /\ sentences (stats (js "Hi! Bye? Ok.")) = 3
  /\ sentences (stats (js "no punctuation")) = 1.
Proof.
  split; [exact sentences_segments|].
  repeat split; vm_compute; reflexivity.
Qed.

(** C10: neither of the word count and the sentence count bounds the other:
    ["..."] has one word and no sentence, [" "] has no word and one
    sentence. *)
Theorem stats_words_sentences_unordered :
  words (stats (js "...")) = 1 /\ sentences (stats (js "...")) = 0
  /\ words (stats (js " ")) = 0 /\ sentences (stats (js " ")) = 1.
Proof. repeat split; vm_compute; reflexivity. Qed.

End TextFacts.

(** * The handlers: proofs *)

Lemma withCalls_nil (st : State) : withCalls st [] = st.
Proof. destruct st. unfold withCalls. simpl. rewrite app_nil_r. reflexivity. Qed.

(** The loop over the buttons never throws: it stores an answer for every
    button and asks the host once per button, in order. *)
Lemma foldM_queryButton (doc : Document) (l : list ToolbarButton) :
  forall (m : gmap string bool) (st : State),
    foldM (queryButton doc) m l st
    = (Returned (answers doc m l),
       withCalls st (map (fun btn => CallQueryCommandState (command btn)) l)).
Proof.
  induction l as [|btn r IH]; intros m st; simpl.
  - unfold ret. rewrite withCalls_nil. reflexivity.
  - unfold bind at 1. unfold queryButton at 1.
    unfold try_catch, callQueryCommandState, bind, record, modify, ret, answered.
    simpl. destruct (queryCommandState doc (command btn)) as [b|];
      rewrite IH; unfold withCalls; simpl; rewrite <- app_assoc; reflexivity.
Qed.

Lemma queryBlock_run (doc : Document) (st : State) :
  exists tag,
    queryBlock doc st = (Returned tag, withCalls st [CallQueryCommandValue formatBlock])
    /\ (if decide (tag = js "body") then js "p" else tag) = blockOf doc.
Proof.
  unfold queryBlock, try_catch, callQueryCommandValue, bind, record, modify,
    ret, blockOf. simpl.
  destruct (queryCommandValue doc formatBlock) as [q|]; simpl.
  - destruct (truthy q); eexists; split; reflexivity.
  - eexists; split; reflexivity.
Qed.

(** With the selection in the surface, the handler asks the host about each
    toggle button and about the block format, and stores what it derives. *)
Lemma handleSelection_inside (doc : Document) (st : State) :
  insideSurface doc st ->
  handleSelection doc st
  = (Returned tt,
     withSnapshot
       (withCalls st
          (map CallQueryCommandState toggleCommands
           ++ [CallQueryCommandValue formatBlock]))
       (answers doc ∅ toggleButtons) (blockOf doc)).
Proof.
  intros (ed & sel & node & Hed & Hsel & Hnode & Hin).
  unfold handleSelection. unfold bind at 1. unfold getEditor.
  rewrite Hed, Hsel, Hnode, Hin. change (negb true) with false. cbv iota.
  unfold bind at 1. cbv beta. rewrite foldM_queryButton.
  unfold bind at 1. cbv beta.
  destruct (queryBlock_run doc
    (withCalls st (map (fun btn => CallQueryCommandState (command btn)) toggleButtons)))
    as (tag & -> & Htag).
  rewrite Htag. unfold bind, setActiveCommands, setBlockType, modify.
  unfold withSnapshot, withCalls. simpl. rewrite <- app_assoc. reflexivity.
Qed.

(** With the selection elsewhere, the handler empties [activeCommands] and
    does nothing else. *)
Lemma handleSelection_outside (doc : Document) (st : State) :
  outsideSurface doc st ->
  handleSelection doc st = (Returned tt, withSnapshot st ∅ (blockType st)).
Proof.
  unfold outsideSurface, handleSelection, bind, getEditor, setActiveCommands,
    modify, withSnapshot.
  destruct st as [ed h p a b fg bg calls]; simpl.
  intros [Hed | [Hsel | (sel & Hsel & Hanchor)]].
  - subst ed. reflexivity.
  - rewrite Hsel. destruct ed; reflexivity.
  - rewrite Hsel. destruct ed; [|reflexivity].
    destruct (anchorNode sel); [rewrite Hanchor|]; reflexivity.
Qed.

Lemma inside_or_outside (doc : Document) (st : State) :
  insideSurface doc st \/ outsideSurface doc st.
Proof.
  unfold insideSurface, outsideSurface.
  destruct (editorRef st) as [ed|]; [|right; left; reflexivity].
  destruct (getSelection doc) as [sel|]; [|right; right; left; reflexivity].
  destruct (anchorNode sel) as [node|] eqn:Hnode.
  - destruct (contains doc node) eqn:Hin.
    + left. exists ed, sel, node. auto.
    + right. right. right. exists sel. rewrite Hnode. auto.
  - right. right. right. exists sel. rewrite Hnode. auto.
Qed.

Lemma handleSelection_returns (doc : Document) (st : State) :
  fst (handleSelection doc st) = Returned tt.
Proof.
  destruct (inside_or_outside doc st) as [H | H].
  - rewrite (handleSelection_inside doc st H). reflexivity.
  - rewrite (handleSelection_outside doc st H). reflexivity.
Qed.

Lemma isActive_empty (st : State) (c : Command) :
  activeCommands st = ∅ -> isActive st c = false.
Proof. unfold isActive. intros ->. rewrite lookup_empty. reflexivity. Qed.

Lemma answers_toggle (doc : Document) (c : Command) :
  In c toggleCommands ->
  answers doc ∅ toggleButtons !! command_name c = Some (answered doc c).
Proof.
  simpl. intros H.
  repeat (destruct H as [<- | H]; [unfold answers; simpl; by simplify_map_eq|]).
  destruct H.
Qed.

Lemma headingState_inside (block : outcome jsstring) :
  insideSurface (selectionInside block) headingState.
Proof. do 3 eexists. repeat split; reflexivity. Defined.

(** ** Selection changes *)

(** C1, as stated, fails: with the selection gone, a block type [h1] stored
    by an earlier event stays [h1]. *)
Lemma handleSelection_outside_not_default :
  ~ (forall (doc : Document) (st : State),
       outsideSurface doc st ->
       (forall c, isActive (snd (handleSelection doc st)) c = false)
       /\ blockType (snd (handleSelection doc st)) = paragraph).
Proof.
  intros H.
  destruct (H noSelection headingState) as [_ Hblock].
  - right. left. reflexivity.
  - vm_compute in Hblock. discriminate Hblock.
Qed.

(** C1, amended: with no surface mounted, no selection, or the anchor node
    outside the surface, the handler returns after emptying
    [activeCommands], so that every toggle command is inactive, and the
    block type keeps the value it had. *)
Theorem handleSelection_outside_clears (doc : Document) (st : State) :
  outsideSurface doc st ->
  handleSelection doc st = (Returned tt, withSnapshot st ∅ (blockType st))
  /\ (forall c, isActive (snd (handleSelection doc st)) c = false)
  /\ blockType (snd (handleSelection doc st)) = blockType st.
Proof.
  intros H. rewrite (handleSelection_outside doc st H).
  split; [reflexivity|]. split; [|reflexivity].
  intros c. apply isActive_empty. reflexivity.
Qed.

Lemma handleSelection_outside_clears_witness :
  outsideSurface noSelection headingState
  /\ isActive (snd (handleSelection noSelection headingState)) bold = false
  /\ blockType (snd (handleSelection noSelection headingState)) = js "h1".
Proof.
  assert (Hout : outsideSurface noSelection headingState)
    by (right; left; reflexivity).
  split; [exact Hout|].
  destruct (handleSelection_outside_clears noSelection headingState Hout)
    as (_ & Hactive & Hblock).
  split; [apply Hactive | exact Hblock].
Defined.

(** ** The block type, with the case mapping of the runtime *)

Lemma unicode_queryBlock_run (unicodeLower : jsstring -> jsstring)
    (doc : Document) (st : State) :
  exists tag,
    Unicode.queryBlock unicodeLower doc st
    = (Returned tag, withCalls st [CallQueryCommandValue formatBlock])
    /\ (if decide (tag = js "body") then js "p" else tag)
       = Unicode.blockOf unicodeLower doc.
Proof.
  unfold Unicode.queryBlock, try_catch, callQueryCommandValue, bind, record,
    modify, ret, Unicode.blockOf, Unicode.derivedBlock. simpl.
  destruct (queryCommandValue doc formatBlock) as [q|]; simpl.
  - destruct (truthy q); eexists; split; reflexivity.
  - eexists; split; reflexivity.
Qed.

Lemma unicode_handleSelection_inside (unicodeLower : jsstring -> jsstring)
    (doc : Document) (st : State) :
  insideSurface doc st ->
  Unicode.handleSelection unicodeLower doc st
  = (Returned tt,
     withSnapshot
       (withCalls st
          (map CallQueryCommandState toggleCommands
           ++ [CallQueryCommandValue formatBlock]))
       (answers doc ∅ toggleButtons) (Unicode.blockOf unicodeLower doc)).
Proof.
  intros (ed & sel & node & Hed & Hsel & Hnode & Hin).
  unfold Unicode.handleSelection. unfold bind at 1. unfold getEditor.
  rewrite Hed, Hsel, Hnode, Hin. change (negb true) with false. cbv iota.
  unfold bind at 1. cbv beta. rewrite foldM_queryButton.
  unfold bind at 1. cbv beta.
  destruct (unicode_queryBlock_run unicodeLower doc
    (withCalls st (map (fun btn => CallQueryCommandState (command btn)) toggleButtons)))
    as (tag & -> & Htag).
  rewrite Htag. unfold bind, setActiveCommands, setBlockType, modify.
  unfold withSnapshot, withCalls. simpl. rewrite <- app_assoc. reflexivity.
Qed.

Lemma unicode_handleSelection_outside (unicodeLower : jsstring -> jsstring)
    (doc : Document) (st : State) :
  outsideSurface doc st ->
  Unicode.handleSelection unicodeLower doc st
  = (Returned tt, withSnapshot st ∅ (blockType st)).
Proof.
  unfold outsideSurface, Unicode.handleSelection, bind, getEditor,
    setActiveCommands, modify, withSnapshot.
  destruct st as [ed h p a b fg bg calls]; simpl.
  intros [Hed | [Hsel | (sel & Hsel & Hanchor)]].
  - subst ed. reflexivity.
  - rewrite Hsel. destruct ed; reflexivity.
  - rewrite Hsel. destruct ed; [|reflexivity].
    destruct (anchorNode sel); [rewrite Hanchor|]; reflexivity.
Qed.

(** On a text of ASCII units the runtime lowers as [asciiLowerCase] does,
    whatever its case mapping elsewhere. *)
Lemma unicode_toLowerCase_ascii (unicodeLower : jsstring -> jsstring)
    (s : jsstring) :
  Unicode.isAscii s = true ->
  Unicode.toLowerCase unicodeLower s = asciiLowerCase s.
Proof. unfold Unicode.toLowerCase. intros ->. reflexivity. Qed.

(** The handler of the sections above is the handler taken at the ASCII
    lowering. *)
Lemma handleSelection_ascii_instance (doc : Document) (st : State) :
  Unicode.handleSelection asciiLowerCase doc st = handleSelection doc st.
Proof.
  assert (Hblock : Unicode.blockOf asciiLowerCase doc = blockOf doc).
  { unfold Unicode.blockOf, blockOf, Unicode.derivedBlock, Unicode.toLowerCase.
    destruct (queryCommandValue doc formatBlock) as [q|]; [|reflexivity].
    destruct (truthy q); [|reflexivity].
    destruct (Unicode.isAscii (removeAngleBrackets q)); reflexivity. }
  destruct (inside_or_outside doc st) as [H | H].
  - rewrite (unicode_handleSelection_inside _ doc st H),
      (handleSelection_inside doc st H), Hblock. reflexivity.
  - rewrite (unicode_handleSelection_outside _ doc st H),
      (handleSelection_outside doc st H). reflexivity.
Qed.

(** What is stored for two reported values: an ASCII one whatever the case
    mapping, and one outside ASCII by the case mapping of the runtime. *)
Example derivedBlock_ascii (unicodeLower : jsstring -> jsstring) :
  Unicode.derivedBlock unicodeLower (js "<H2>") = js "h2"
  /\ Unicode.derivedBlock unicodeLower (js "a<B>c") = js "abc".
Proof. split; reflexivity. Qed.

Example derivedBlock_beyond_ascii (unicodeLower : jsstring -> jsstring) :
  unicodeLower [201%N] = [233%N] ->
  Unicode.derivedBlock unicodeLower [60%N; 201%N; 62%N] = [233%N].
Proof.
  intros H. unfold Unicode.derivedBlock, Unicode.toLowerCase. simpl.
  rewrite H. reflexivity.
Qed.

(** C6, as stated, fails, whatever the case mapping of the runtime: when the
    host reports the empty string, the stored block type is the paragraph
    value, not the empty string; and when it reports [a<B>c], a value that
    is not empty, the stored block type is [abc], every [<] and [>] removed,
    where the value without surrounding delimiters in lower case is
    [a<b>c]. *)
Lemma handleSelection_block_not_normalized :
  ~ (exists unicodeLower : jsstring -> jsstring,
       forall (doc : Document) (st : State) (reported : jsstring),
         insideSurface doc st ->
         queryCommandValue doc formatBlock = Returned reported ->
         blockType (snd (Unicode.handleSelection unicodeLower doc st))
         = Unicode.normalizedBlock unicodeLower reported)
  /\ ~ (exists unicodeLower : jsstring -> jsstring,
          forall (doc : Document) (st : State) (reported : jsstring),
            insideSurface doc st ->
            queryCommandValue doc formatBlock = Returned reported ->
            reported <> [] ->
            blockType (snd (Unicode.handleSelection unicodeLower doc st))
            = Unicode.normalizedBlock unicodeLower reported).
Proof.
  split.
  - intros [unicodeLower H].
    pose proof (H (selectionInside (Returned [])) headingState []
                  (headingState_inside _) eq_refl) as Hblock.
    vm_compute in Hblock. discriminate Hblock.
  - intros [unicodeLower H].
    assert (Hne : js "a<B>c" <> []) by discriminate.
    pose proof (H (selectionInside (Returned (js "a<B>c"))) headingState
                  (js "a<B>c") (headingState_inside _) eq_refl Hne) as Hblock.
    vm_compute in Hblock. discriminate Hblock.
Qed.

(** C6, amended: with the selection in the surface, a non-empty reported
    value is stored with every [<] and [>] removed and in lower case, the
    paragraph value taking the place of [body]; an empty reported value
    gives the paragraph value; [body] is never stored. The lower case is
    that of [String.prototype.toLowerCase], whatever the case mapping of
    the runtime. *)
Theorem handleSelection_block (unicodeLower : jsstring -> jsstring)
    (doc : Document) (st : State) (reported : jsstring) :
  insideSurface doc st ->
  queryCommandValue doc formatBlock = Returned reported ->
  (reported <> [] ->
   blockType (snd (Unicode.handleSelection unicodeLower doc st))
   = Unicode.derivedBlock unicodeLower reported)
  /\ (reported = [] ->
      blockType (snd (Unicode.handleSelection unicodeLower doc st)) = paragraph)
  /\ blockType (snd (Unicode.handleSelection unicodeLower doc st)) <> js "body".
Proof.
  intros Hin Hq. rewrite (unicode_handleSelection_inside _ doc st Hin). simpl.
  unfold Unicode.blockOf, Unicode.derivedBlock, paragraph. rewrite Hq.
  repeat split.
  - intros Hne. destruct reported; [congruence | reflexivity].
  - intros ->. reflexivity.
  - destruct (truthy reported); [|discriminate]. cbv zeta.
    case_decide; [discriminate | assumption].
Qed.

Lemma handleSelection_block_witness :
  insideSurface (selectionInside (Returned (js "<BODY>"))) headingState
  /\ queryCommandValue (selectionInside (Returned (js "<BODY>"))) formatBlock
     = Returned (js "<BODY>")
  /\ blockType
       (snd (Unicode.handleSelection asciiLowerCase
               (selectionInside (Returned (js "<BODY>"))) headingState))
     = js "p".
Proof.
  split; [apply headingState_inside|]. split; [reflexivity|].
  destruct (handleSelection_block asciiLowerCase
              (selectionInside (Returned (js "<BODY>")))
              headingState (js "<BODY>") (headingState_inside _) eq_refl)
    as (Hblock & _ & _).
  rewrite Hblock; [reflexivity | discriminate].
Defined.

(** C7: the selection handler always returns; with the selection in the
    surface it asks the host about every toggle command and then about the
    block format whatever the answers, a toggle command whose query throws
    is stored inactive, any other is stored as answered, and a throwing
    block-format query gives the paragraph value. *)
Theorem handleSelection_absorbs_failures (doc : Document) (st : State) :
  fst (handleSelection doc st) = Returned tt
  /\ (insideSurface doc st ->
      (forall c, In c toggleCommands ->
         queryCommandState doc c = Thrown ->
         isActive (snd (handleSelection doc st)) c = false)
      /\ (forall c b, In c toggleCommands ->
            queryCommandState doc c = Returned b ->
            isActive (snd (handleSelection doc st)) c = b)
      /\ hostCalls (snd (handleSelection doc st))
         = hostCalls st
           ++ map CallQueryCommandState
                [bold; italic; underline; strikeThrough; insertOrderedList;
                 insertUnorderedList; justifyLeft; justifyCenter;
                 justifyRight; justifyFull]
           ++ [CallQueryCommandValue formatBlock]
      /\ (queryCommandValue doc formatBlock = Thrown ->
          blockType (snd (handleSelection doc st)) = paragraph)).
Proof.
  split; [apply handleSelection_returns|].
  intros Hin. rewrite (handleSelection_inside doc st Hin).
  unfold isActive. cbn [snd withSnapshot activeCommands blockType hostCalls withCalls].
  repeat split.
  - intros c Hc Hq. rewrite (answers_toggle doc c Hc).
    unfold answered. rewrite Hq. reflexivity.
  - intros c b Hc Hq. rewrite (answers_toggle doc c Hc).
    unfold answered. rewrite Hq. reflexivity.
  - intros Hq. unfold blockOf. rewrite Hq. reflexivity.
Qed.

Lemma handleSelection_absorbs_failures_witness :
  insideSurface (selectionInside Thrown) headingState
  /\ isActive (snd (handleSelection (selectionInside Thrown) headingState)) italic
     = false
  /\ isActive (snd (handleSelection (selectionInside Thrown) headingState)) bold
     = true
  /\ blockType (snd (handleSelection (selectionInside Thrown) headingState))
     = paragraph.
Proof.
  split; [apply headingState_inside|].
  destruct (handleSelection_absorbs_failures (selectionInside Thrown) headingState)
    as (_ & H).
  destruct (H (headingState_inside _)) as (Hthrown & Hanswered & _ & Hblock).
  split; [|split].
  - apply Hthrown; [simpl; tauto | reflexivity].
  - apply Hanswered; [simpl; tauto | reflexivity].
  - apply Hblock. reflexivity.
Defined.

(** ** Commands, colors and reset *)

Section EngineFacts.

Variable execCommandEffect :
  Command + ColorCommand -> option jsstring -> jsstring -> jsstring.
Variable innerTextOf : jsstring -> jsstring.

(** The handlers on this engine. *)
Let exec_ := exec execCommandEffect innerTextOf.
Let handleColorPick_ := handleColorPick execCommandEffect innerTextOf.
Let handleInput_ := handleInput innerTextOf.
Let typeInput_ := typeInput innerTextOf.
Let reset_ := reset innerTextOf.

Lemma reset_mounted (st : State) (ed : Editor) :
  editorRef st = Some ed ->
  reset innerTextOf st = (Returned tt, resetState innerTextOf (hostCalls st)).
Proof.
  intros Hed. unfold reset, bind, getEditor. rewrite Hed.
  unfold updateStateFromEditor, bind, getEditor, setInnerHTML, setHtml,
    setPlain, setForeground, setBackground, setActiveCommands, setBlockType,
    modify.
  simpl. rewrite Hed. reflexivity.
Qed.

(** C2: with the surface mounted, [reset] leaves the starter markup in the
    surface and in [html], the empty [activeCommands] with the paragraph
    block type, and the colors [#1f2933] and [#ffffff], whatever the state
    before; a second [reset] gives what the first gave. *)
Theorem reset_fixed_idempotent (st : State) (ed : Editor) :
  editorRef st = Some ed ->
  fst (reset_ st) = Returned tt
  /\ editorRef (snd (reset_ st)) = Some (mkEditor DEFAULT_MARKUP)
  /\ html (snd (reset_ st)) = DEFAULT_MARKUP
  /\ plain (snd (reset_ st)) = innerTextOf DEFAULT_MARKUP
  /\ activeCommands (snd (reset_ st)) = ∅
  /\ (forall c, isActive (snd (reset_ st)) c = false)
  /\ blockType (snd (reset_ st)) = paragraph
  /\ foreground (snd (reset_ st)) = js "#1f2933"
  /\ background (snd (reset_ st)) = js "#ffffff"
  /\ reset_ (snd (reset_ st)) = reset_ st.
Proof.
  intros Hed. unfold reset_. rewrite (reset_mounted st ed Hed). simpl.
  rewrite (reset_mounted (resetState innerTextOf (hostCalls st))
             (mkEditor DEFAULT_MARKUP) eq_refl).
  repeat split.
Qed.

(** C5: [exec] of [formatBlock] without a value is [exec] of [formatBlock]
    with the paragraph value: the same state results, and on a mounted
    surface the host is called the same way, a focus and then
    [execCommand] of [formatBlock] with the paragraph value. *)
Theorem exec_formatBlock_default (st : State) :
  exec_ formatBlock None st = exec_ formatBlock (Some paragraph) st
  /\ hostCalls (snd (exec_ formatBlock None st))
     = hostCalls st
       ++ match editorRef st with
          | Some _ =>
              [CallFocus; CallExecCommand (inl formatBlock) (Some paragraph)]
          | None => []
          end.
Proof.
  split; [reflexivity|].
  unfold exec_, exec, bind, getEditor.
  destruct st as [ed h p a b fg bg calls]; simpl.
  destruct ed as [ed|]; simpl.
  - rewrite <- app_assoc. reflexivity.
  - rewrite app_nil_r. reflexivity.
Qed.

(** C8: while the surface is not mounted, [exec], [handleColorPick] and
    [reset] return with the state, host calls included, as it was. *)
Theorem unmounted_no_op (st : State) :
  editorRef st = None ->
  (forall command value, exec_ command value st = (Returned tt, st))
  /\ (forall command color,
        handleColorPick_ command color st = (Returned tt, st))
  /\ reset_ st = (Returned tt, st).
Proof.
  intros Hed.
  unfold exec_, handleColorPick_, reset_, exec, handleColorPick, reset, bind,
    getEditor, ret.
  rewrite Hed. repeat split.
Qed.

(** C9: [exec], typing and [handleInput], and [handleSelection] leave both
    colors as they were; picking a text color leaves the background color,
    picking a background color leaves the text color. *)
Theorem colors_stable :
  (forall command value st,
     foreground (snd (exec_ command value st)) = foreground st
     /\ background (snd (exec_ command value st)) = background st)
  /\ (forall st,
        foreground (snd (handleInput_ st)) = foreground st
        /\ background (snd (handleInput_ st)) = background st)
  /\ (forall content st,
        foreground (snd (typeInput_ content st)) = foreground st
        /\ background (snd (typeInput_ content st)) = background st)
  /\ (forall doc st,
        foreground (snd (handleSelection doc st)) = foreground st
        /\ background (snd (handleSelection doc st)) = background st)
  /\ (forall color st,
        background (snd (handleColorPick_ foreColor color st)) = background st)
  /\ (forall color st,
        foreground (snd (handleColorPick_ backColor color st)) = foreground st).
Proof.
  repeat apply conj.
  - intros command value [[ed|] h p a b fg bg calls];
      destruct command; split; reflexivity.
  - intros [[ed|] h p a b fg bg calls]; split; reflexivity.
  - intros content [[ed|] h p a b fg bg calls]; split; reflexivity.
  - intros doc st. destruct (inside_or_outside doc st) as [H | H].
    + rewrite (handleSelection_inside doc st H). split; reflexivity.
    + rewrite (handleSelection_outside doc st H). split; reflexivity.
  - intros color [[ed|] h p a b fg bg calls]; reflexivity.
  - intros color [[ed|] h p a b fg bg calls]; reflexivity.
Qed.

End EngineFacts.

Lemma reset_fixed_idempotent_witness :
  editorRef headingState = Some (mkEditor (js "<h1>Title</h1>"))
  /\ html (snd (reset rawText headingState)) = DEFAULT_MARKUP
  /\ blockType (snd (reset rawText headingState)) = js "p"
  /\ foreground (snd (reset rawText headingState)) = js "#1f2933"
  /\ reset rawText (snd (reset rawText headingState)) = reset rawText headingState.
Proof.
  split; [reflexivity|].
  destruct (reset_fixed_idempotent rawText headingState
              (mkEditor (js "<h1>Title</h1>")) eq_refl)
    as (_ & _ & Hhtml & _ & _ & _ & Hblock & Hfg & _ & Hidem).
  repeat split; assumption.
Defined.

Lemma unmounted_no_op_witness :
  editorRef unmountedState = None
  /\ exec keepContent rawText bold None unmountedState
     = (Returned tt, unmountedState)
  /\ handleColorPick keepContent rawText foreColor (js "#00ff00") unmountedState
     = (Returned tt, unmountedState)
  /\ reset rawText unmountedState = (Returned tt, unmountedState).
Proof.
  split; [reflexivity|].
  destruct (unmounted_no_op keepContent rawText unmountedState eq_refl)
    as (Hexec & Hpick & Hreset).
  split; [apply Hexec | split; [apply Hpick | exact Hreset]].
Defined.

(** * More on the text statistics *)

Module StatsFacts.
Import Text.

Lemma segments_from_separators (sep : N -> bool) (w : jsstring) (b : bool) :
  Forall (fun c => sep c = true) w -> segments_from sep b w = 0.
Proof.
  intros H. revert b. induction H as [|c r Hc _ IH]; intros b; simpl.
  - reflexivity.
  - rewrite Hc. apply IH.
Qed.

(** Joining two texts with a separator adds their segment counts. *)
Lemma segments_from_join (sep : N -> bool) (a b : jsstring) (c : N) :
  sep c = true ->
  forall atBoundary,
    segments_from sep atBoundary (a ++ c :: b)
    = segments_from sep atBoundary a + segments_from sep true b.
Proof.
  intros Hc. induction a as [|d r IH]; intros atBoundary; simpl.
  - rewrite Hc. reflexivity.
  - destruct (sep d); rewrite IH; lia.
Qed.

Lemma segments_from_app_separators (sep : N -> bool) (a w : jsstring) :
  Forall (fun c => sep c = true) w ->
  forall b, segments_from sep b (a ++ w) = segments_from sep b a.
Proof.
  intros Hw. induction a as [|d r IH]; intros b; simpl.
  - apply segments_from_separators. exact Hw.
  - destruct (sep d); rewrite IH; reflexivity.
Qed.

Lemma segments_dropWhile (sep : N -> bool) (s : jsstring) :
  segments sep (dropWhile sep s) = segments sep s.
Proof.
  unfold segments. induction s as [|c r IH]; simpl; [reflexivity|].
  destruct (sep c) eqn:Hc; [exact IH|]. simpl. rewrite Hc. reflexivity.
Qed.

(** What [dropWhile] drops is a prefix of units that satisfy the test. *)
Lemma dropWhile_prefix (p : N -> bool) (s : jsstring) :
  exists w, s = w ++ dropWhile p s /\ Forall (fun c => p c = true) w.
Proof.
  induction s as [|c r (w & Hw & Hall)]; simpl.
  - exists []. split; [reflexivity | constructor].
  - destruct (p c) eqn:Hc.
    + exists (c :: w). split; [simpl; congruence | constructor; assumption].
    + exists []. split; [reflexivity | constructor].
Qed.

(** What [trim] keeps: the text is the kept part between two runs of white
    space. *)
Lemma trim_between (s : jsstring) :
  exists front back,
    s = front ++ trim s ++ back
    /\ Forall (fun c => isSpace c = true) front
    /\ Forall (fun c => isSpace c = true) back.
Proof.
  unfold trim.
  destruct (dropWhile_prefix isSpace s) as (front & Hs & Hfront).
  destruct (dropWhile_prefix isSpace (rev (dropWhile isSpace s)))
    as (w & Hw & Hall).
  exists front, (rev w). repeat split.
  - rewrite <- rev_app_distr, <- Hw, rev_involutive. exact Hs.
  - exact Hfront.
  - apply Forall_rev. exact Hall.
Qed.

Lemma segments_trim (s : jsstring) :
  segments isSpace (trim s) = segments isSpace s.
Proof.
  destruct (trim_between s) as (front & back & Hs & Hfront & Hback).
  rewrite Hs at 2. unfold segments.
  transitivity (segments_from isSpace true (trim s ++ back)).
  - symmetry. apply segments_from_app_separators. exact Hback.
  - clear Hs. induction Hfront as [|c r Hc _ IH]; simpl; [reflexivity|].
    rewrite Hc. exact IH.
Qed.

Lemma segments_from_bound (sep : N -> bool) (s : jsstring) :
  forall b, 2 * segments_from sep b s <= length s + (if b then 1 else 0).
Proof.
  induction s as [|c r IH]; intros b; simpl.
  - destruct b; lia.
  - destruct (sep c).
    + specialize (IH true). simpl in IH. destruct b; lia.
    + specialize (IH false). simpl in IH. destruct b; lia.
Qed.

Lemma segments_zero (sep : N -> bool) (s : jsstring) :
  segments sep s = 0 <-> Forall (fun c => sep c = true) s.
Proof.
  split.
  - intros H0. apply List.Forall_forall. intros c Hin.
    destruct (sep c) eqn:Hc; [reflexivity|].
    pose proof (TextFacts.segments_pos sep s c Hin Hc). lia.
  - intros H. apply segments_from_separators. exact H.
Qed.

Lemma words_untrimmed (t : jsstring) : words (stats t) = segments isSpace t.
Proof. rewrite TextFacts.words_segments. apply segments_trim. Qed.

(** X1: trimming is immaterial to the word count: [words] is the number of
    maximal runs of units other than white space in the text as given, and
    so the same for a text and for the text trimmed. *)
Theorem words_of_untrimmed (t : jsstring) :
  words (stats t) = segments isSpace t
  /\ words (stats (trim t)) = words (stats t).
Proof.
  split; [apply words_untrimmed|].
  rewrite !words_untrimmed. apply segments_trim.
Qed.

(** X2: joining two texts with a white-space unit adds their word counts,
    and joining them with a sentence terminator adds their sentence counts;
    so a terminator at the end of a text adds no sentence. *)
Theorem stats_additive (a b : jsstring) (c : N) :
  (isSpace c = true ->
   words (stats (a ++ c :: b)) = words (stats a) + words (stats b))
  /\ (isTerminator c = true ->
      sentences (stats (a ++ c :: b))
      = sentences (stats a) + sentences (stats b))
  /\ (isTerminator c = true ->
      sentences (stats (a ++ [c])) = sentences (stats a)).
Proof.
  repeat split.
  - intros Hc. rewrite !words_untrimmed.
    apply segments_from_join. exact Hc.
  - intros Hc. rewrite !TextFacts.sentences_segments.
    apply segments_from_join. exact Hc.
  - intros Hc. rewrite !TextFacts.sentences_segments.
    unfold segments. rewrite segments_from_join by exact Hc. simpl. lia.
Qed.

Lemma stats_additive_witness :
  isSpace 32 = true /\ isTerminator 46 = true
  /\ words (stats (js "two words" ++ 32%N :: js "and three more")) = 2 + 3
  /\ sentences (stats (js "One. Two" ++ [46%N])) = 2.
Proof.
  split; [reflexivity|]. split; [reflexivity|].
  destruct (stats_additive (js "two words") (js "and three more") 32)
    as (Hwords & _ & _).
  destruct (stats_additive (js "One. Two") [] 46) as (_ & _ & Hend).
  split.
  - rewrite Hwords; reflexivity.
  - rewrite Hend; reflexivity.
Defined.

(** X3: a text of n units has at most (n + 1) / 2 words and at most
    (n + 1) / 2 sentences; neither count exceeds the character count. *)
Theorem stats_bounds (t : jsstring) :
  2 * words (stats t) <= characters (stats t) + 1
  /\ 2 * sentences (stats t) <= characters (stats t) + 1
  /\ words (stats t) <= characters (stats t)
  /\ sentences (stats t) <= characters (stats t).
Proof.
  rewrite words_untrimmed, TextFacts.sentences_segments.
  change (characters (stats t)) with (length t).
  pose proof (segments_from_bound isSpace t true) as Hw.
  pose proof (segments_from_bound isTerminator t true) as Hs.
  unfold segments. simpl in Hw, Hs.
  destruct t as [|c r]; simpl in *; [|lia].
  repeat split; lia.
Qed.

(** X4: the word count is 0 exactly when every unit of the text is white
    space, and the sentence count is 0 exactly when every unit is one of
    [.], [!] and [?]; the empty text is both. *)
Theorem stats_zero (t : jsstring) :
  (words (stats t) = 0 <-> Forall (fun c => isSpace c = true) t)
  /\ (sentences (stats t) = 0 <-> Forall (fun c => isTerminator c = true) t).
Proof.
  rewrite words_untrimmed, TextFacts.sentences_segments.
  split; apply segments_zero.
Qed.

Lemma concat_split_from (sep : N -> bool) (s : jsstring) :
  forall inRun tok,
    concat (split_from sep inRun tok s)
    = rev tok ++ List.filter (fun c => negb (sep c)) s.
Proof.
  induction s as [|c r IH]; intros inRun tok; simpl.
  - rewrite !app_nil_r. reflexivity.
  - destruct (sep c); simpl.
    + destruct inRun; simpl; rewrite IH.
      * reflexivity.
      * simpl. reflexivity.
    + rewrite IH. simpl. rewrite <- app_assoc. reflexivity.
Qed.

Lemma split_from_pieces (sep : N -> bool) (s : jsstring) :
  forall inRun tok,
    Forall (fun c => sep c = false) tok ->
    Forall (Forall (fun c => sep c = false)) (split_from sep inRun tok s).
Proof.
  induction s as [|c r IH]; intros inRun tok Htok; simpl.
  - constructor; [apply Forall_rev; exact Htok | constructor].
  - destruct (sep c) eqn:Hc.
    + destruct inRun.
      * apply IH. exact Htok.
      * constructor; [apply Forall_rev; exact Htok | apply IH; constructor].
    + apply IH. constructor; assumption.
Qed.

(** X5: [split] on separator runs loses nothing but separators: no piece
    holds a separator, the pieces put end to end are the text without its
    separators, and there is always at least one piece. *)
Theorem split_pieces (sep : N -> bool) (s : jsstring) :
  Forall (Forall (fun c => sep c = false)) (split sep s)
  /\ concat (split sep s) = List.filter (fun c => negb (sep c)) s
  /\ split sep s <> [].
Proof.
  unfold split. repeat split.
  - apply split_from_pieces. constructor.
  - apply concat_split_from.
  - destruct s as [|c r]; simpl; [discriminate|].
    destruct (sep c); [discriminate|].
    generalize [c]. generalize false. induction r as [|d r IH]; simpl.
    + discriminate.
    + intros b tok. destruct (sep d); [destruct b|]; try discriminate; apply IH.
Qed.

End StatsFacts.

(** * The starter plain text: proofs *)

Module MarkupFacts.
Import Text.

Lemma replaceTags_from_skip (s : jsstring) :
  forall n, replaceTags_from n s = replaceTags (skipn n s).
Proof.
  unfold replaceTags.
  induction s as [|c r IH]; intros n.
  - destruct n; reflexivity.
  - destruct n as [|k]; [reflexivity|]. simpl. apply IH.
Qed.

(** How [replaceTags] goes at a [<]. *)
Lemma replaceTags_open (r : jsstring) :
  replaceTags (60%N :: r)
  = match tagLength 0 r with
    | Some n => 32%N :: replaceTags (skipn n r)
    | None => 60%N :: replaceTags r
    end.
Proof.
  unfold replaceTags at 1. simpl.
  destruct (tagLength 0 r) as [n|]; [|reflexivity].
  rewrite replaceTags_from_skip. reflexivity.
Qed.

Lemma replaceTags_other (c : N) (r : jsstring) :
  c <> 60%N -> replaceTags (c :: r) = c :: replaceTags r.
Proof.
  intros Hc. unfold replaceTags. simpl.
  destruct (N.eqb_spec c 60); [contradiction | reflexivity].
Qed.

Lemma replaceTags_from_length (s : jsstring) :
  forall n, length (replaceTags_from n s) <= length s.
Proof.
  induction s as [|c r IH]; intros n; simpl; [lia|].
  destruct n as [|k].
  - destruct (c =? 60)%N; [destruct (tagLength 0 r)|]; simpl;
      match goal with |- context [replaceTags_from ?m r] =>
        specialize (IH m) end; lia.
  - specialize (IH k). lia.
Qed.

(** Without a [>] ahead, no tag ends. *)
Lemma tagLength_no_close (s : jsstring) :
  Forall (fun c => c <> 62%N) s -> forall k, tagLength k s = None.
Proof.
  induction 1 as [|c r Hc _ IH]; intros k; simpl; [reflexivity|].
  destruct (N.eqb_spec c 62); [contradiction | apply IH].
Qed.

(** A tag that has begun fails to end only if no [>] is ahead. *)
Lemma tagLength_begun_none (s : jsstring) :
  forall k, tagLength (S k) s = None -> Forall (fun c => c <> 62%N) s.
Proof.
  induction s as [|c r IH]; intros k; simpl; [constructor|].
  destruct (N.eqb_spec c 62); [discriminate|].
  intros H. constructor; [assumption | exact (IH _ H)].
Qed.

Lemma tagLength_body (u b : jsstring) :
  Forall (fun c => c <> 62%N) u ->
  forall k, 0 < k + length u ->
    tagLength k (u ++ 62%N :: b) = Some (S (k + length u)).
Proof.
  induction 1 as [|c r Hc _ IH]; intros k Hk; simpl in *.
  - destruct k; [lia|]. f_equal. lia.
  - destruct (N.eqb_spec c 62); [contradiction|].
    rewrite IH by lia. f_equal. lia.
Qed.

Lemma replaceTags_no_close (s : jsstring) :
  Forall (fun c => c <> 62%N) s -> replaceTags s = s.
Proof.
  induction 1 as [|c r Hc Hr IH]; [reflexivity|].
  destruct (N.eqb_spec c 60) as [-> | Hne].
  - rewrite replaceTags_open, (tagLength_no_close r Hr), IH. reflexivity.
  - rewrite (replaceTags_other c r Hne), IH. reflexivity.
Qed.

Lemma replaceTags_no_open (s : jsstring) :
  Forall (fun c => c <> 60%N) s ->
  forall rest, replaceTags (s ++ rest) = s ++ replaceTags rest.
Proof.
  induction 1 as [|c r Hc _ IH]; intros rest; [reflexivity|].
  simpl. rewrite (replaceTags_other c _ Hc), IH. reflexivity.
Qed.

Lemma skipn_past (u b : jsstring) (c : N) :
  skipn (S (length u)) (u ++ c :: b) = b.
Proof. induction u as [|d u IH]; [reflexivity | exact IH]. Qed.

(** Where no tag begins, none begins in the result either. *)
Lemma tagLength_replaceTags_none (r : jsstring) :
  tagLength 0 r = None -> tagLength 0 (replaceTags r) = None.
Proof.
  destruct r as [|c r']; [reflexivity|]. simpl.
  destruct (N.eqb_spec c 62) as [-> | Hne].
  - intros _. rewrite replaceTags_other by discriminate. reflexivity.
  - intros H. pose proof (tagLength_begun_none r' 0 H) as Hr.
    rewrite (replaceTags_no_close (c :: r')) by (constructor; assumption).
    simpl. destruct (N.eqb_spec c 62); [contradiction | exact H].
Qed.

Lemma replaceTags_idempotent_upto (n : nat) :
  forall s, length s <= n -> replaceTags (replaceTags s) = replaceTags s.
Proof.
  induction n as [|n IH]; intros s Hlen.
  - destruct s; [reflexivity | simpl in Hlen; lia].
  - destruct s as [|c r]; [reflexivity|]. simpl in Hlen.
    destruct (N.eqb_spec c 60) as [-> | Hne].
    + rewrite replaceTags_open.
      destruct (tagLength 0 r) as [k|] eqn:Htag.
      * rewrite replaceTags_other by discriminate.
        rewrite IH; [reflexivity|]. rewrite length_skipn. lia.
      * rewrite replaceTags_open, (tagLength_replaceTags_none r Htag).
        rewrite IH by lia. reflexivity.
    + rewrite (replaceTags_other c r Hne), (replaceTags_other _ _ Hne).
      rewrite IH by lia. reflexivity.
Qed.

(** X6: replacing tags never lengthens a text, leaves a text without [<]
    or without [>] as it is, and leaves nothing to replace: done twice it
    gives what it gives done once. *)
Theorem replaceTags_settles (s : jsstring) :
  length (replaceTags s) <= length s
  /\ (Forall (fun c => c <> 60%N) s -> replaceTags s = s)
  /\ (Forall (fun c => c <> 62%N) s -> replaceTags s = s)
  /\ replaceTags (replaceTags s) = replaceTags s.
Proof.
  repeat split.
  - apply replaceTags_from_length.
  - intros H. pose proof (replaceTags_no_open s H []) as E.
    change (replaceTags []) with (@nil N) in E.
    rewrite !app_nil_r in E. exact E.
  - apply replaceTags_no_close.
  - apply (replaceTags_idempotent_upto (length s)). lia.
Qed.

Lemma replaceTags_settles_witness :
  Forall (fun c => c <> 60%N) (js "a > b") /\ replaceTags (js "a > b") = js "a > b".
Proof.
  assert (H : Forall (fun c => c <> 60%N) (js "a > b"))
    by (repeat constructor; discriminate).
  split; [exact H|].
  destruct (replaceTags_settles (js "a > b")) as (_ & Hkeep & _ & _).
  exact (Hkeep H).
Defined.

(** X7: a [<], one or more units other than [>], and a [>] become one
    space, after a text without [<] that is kept; the rest of the text is
    handled in its turn. *)
Theorem replaceTags_tag (before body rest : jsstring) :
  Forall (fun c => c <> 60%N) before ->
  Forall (fun c => c <> 62%N) body ->
  body <> [] ->
  replaceTags (before ++ 60%N :: body ++ 62%N :: rest)
  = before ++ 32%N :: replaceTags rest.
Proof.
  intros Hbefore Hbody Hne.
  rewrite (replaceTags_no_open before Hbefore), replaceTags_open.
  rewrite (tagLength_body body rest Hbody 0)
    by (destruct body; [congruence | simpl; lia]).
  simpl. rewrite skipn_past. reflexivity.
Qed.

Lemma replaceTags_tag_witness :
  replaceTags (js "Hi " ++ 60%N :: js "b class=x" ++ 62%N :: js "there")
  = js "Hi " ++ 32%N :: js "there".
Proof.
  rewrite (replaceTags_tag (js "Hi ") (js "b class=x") (js "there")).
  - reflexivity.
  - repeat constructor; discriminate.
  - repeat constructor; discriminate.
  - discriminate.
Defined.

Lemma collapse_from_singleSpaced (s : jsstring) :
  forall inRun, singleSpaced_from inRun (collapse_from inRun s) = true.
Proof.
  induction s as [|c r IH]; intros inRun; simpl; [reflexivity|].
  destruct (isSpace c) eqn:Hc.
  - destruct inRun; [apply IH|]. simpl. apply IH.
  - simpl. rewrite Hc. apply IH.
Qed.

Lemma collapse_from_segments (s : jsstring) :
  forall inRun b, (inRun = true -> b = true) ->
    segments_from isSpace b (collapse_from inRun s) = segments_from isSpace b s.
Proof.
  induction s as [|c r IH]; intros inRun b Hb; simpl; [reflexivity|].
  destruct (isSpace c) eqn:Hc.
  - destruct inRun.
    + rewrite (Hb eq_refl). apply IH. reflexivity.
    + simpl. apply IH. reflexivity.
  - simpl. rewrite Hc. rewrite (IH false false); [reflexivity | discriminate].
Qed.

Lemma collapse_from_fixed (s : jsstring) :
  forall inRun, singleSpaced_from inRun s = true -> collapse_from inRun s = s.
Proof.
  induction s as [|c r IH]; intros inRun; simpl; [reflexivity|].
  destruct (isSpace c) eqn:Hc.
  - destruct inRun; simpl; [rewrite andb_false_r; discriminate|].
    rewrite andb_true_r. intros H. apply andb_prop in H as [Hc32 Hr].
    apply N.eqb_eq in Hc32. subst c. rewrite (IH true Hr). reflexivity.
  - intros H. rewrite (IH false H). reflexivity.
Qed.

(** X8: [collapseSpaces] leaves white space only as single spaces, keeps
    the word count, and changes nothing in a text that is already so. *)
Theorem collapseSpaces_normal (s : jsstring) :
  singleSpaced (collapseSpaces s) = true
  /\ words (stats (collapseSpaces s)) = words (stats s)
  /\ collapseSpaces (collapseSpaces s) = collapseSpaces s.
Proof.
  unfold singleSpaced, collapseSpaces. repeat split.
  - apply collapse_from_singleSpaced.
  - rewrite !StatsFacts.words_untrimmed. unfold segments.
    apply collapse_from_segments. discriminate.
  - apply collapse_from_fixed, collapse_from_singleSpaced.
Qed.

Lemma singleSpaced_from_weaken (s : jsstring) :
  singleSpaced_from true s = true -> singleSpaced_from false s = true.
Proof.
  destruct s as [|c r]; simpl; [reflexivity|].
  destruct (isSpace c); [|auto].
  rewrite andb_false_r. discriminate.
Qed.

Lemma singleSpaced_from_prefix (x y : jsstring) :
  forall b, singleSpaced_from b (x ++ y) = true -> singleSpaced_from b x = true.
Proof.
  induction x as [|c r IH]; intros b; simpl; [reflexivity|].
  destruct (isSpace c).
  - intros H. apply andb_prop in H as [H1 H2]. rewrite H1. apply (IH true H2).
  - apply IH.
Qed.

Lemma singleSpaced_from_suffix (x y : jsstring) :
  forall b, singleSpaced_from b (x ++ y) = true ->
    singleSpaced_from false y = true.
Proof.
  induction x as [|c r IH]; intros b; simpl.
  - destruct b; [apply singleSpaced_from_weaken | auto].
  - destruct (isSpace c).
    + intros H. apply andb_prop in H as [_ H2]. apply (IH true H2).
    + apply IH.
Qed.

Lemma endsWithText_snoc (r : jsstring) (d : N) :
  endsWithText (r ++ [d]) = negb (isSpace d).
Proof.
  induction r as [|c r IH]; [reflexivity|].
  simpl. destruct (r ++ [d]) eqn:E; [|exact IH].
  destruct r; discriminate.
Qed.

(** What [trim] keeps neither starts nor ends with white space. *)
Lemma trim_ends (s : jsstring) :
  endsWithText (trim s) = true
  /\ match trim s with
     | c :: _ => isSpace c = false
     | [] => True
     end.
Proof.
  unfold trim.
  destruct (dropWhile isSpace (rev (dropWhile isSpace s))) as [|d w] eqn:E.
  - split; [reflexivity | exact I].
  - pose proof (TextFacts.dropWhile_head _ _ _ _ E) as Hd.
    split.
    + simpl. rewrite endsWithText_snoc, Hd. reflexivity.
    + destruct (StatsFacts.dropWhile_prefix isSpace (rev (dropWhile isSpace s)))
        as (x & Hx & _).
      rewrite E in Hx. apply (f_equal (@rev N)) in Hx.
      rewrite rev_involutive, rev_app_distr in Hx.
      destruct (rev (d :: w)) as [|c q] eqn:Ec; [exact I|].
      destruct (dropWhile isSpace s) as [|c' q'] eqn:Es; [discriminate|].
      injection Hx as -> _.
      exact (TextFacts.dropWhile_head _ _ _ _ Es).
Qed.

(** In a text with single spaces that ends with text, each space starts a
    new word. *)
Lemma segments_from_singleSpaced (s : jsstring) :
  forall afterSpace b,
    singleSpaced_from afterSpace s = true ->
    endsWithText s = true ->
    segments_from isSpace b s
    = length (List.filter isSpace s)
      + match s with
        | c :: _ => if isSpace c then 0 else if b then 1 else 0
        | [] => 0
        end.
Proof.
  induction s as [|c r IH]; intros afterSpace b Hs He; [reflexivity|].
  simpl in Hs. simpl segments_from. simpl List.filter.
  destruct (isSpace c) eqn:Hc.
  - apply andb_prop in Hs as [_ Hr].
    assert (Her : endsWithText r = true).
    { simpl in He. destruct r; [rewrite Hc in He; discriminate | exact He]. }
    rewrite (IH true true Hr Her). simpl.
    destruct r as [|d q].
    + simpl in He. rewrite Hc in He. discriminate.
    + simpl in Hr. destruct (isSpace d).
      * rewrite andb_false_r in Hr. discriminate.
      * lia.
  - assert (Her : endsWithText r = true).
    { simpl in He. destruct r; [reflexivity | exact He]. }
    rewrite (IH false false Hs Her).
    destruct r as [|d q]; simpl; [lia|]. destruct (isSpace d); simpl; lia.
Qed.

(** X9: in a text with its white space collapsed and then trimmed, as the
    starter plain text is made, the word count is 0 if the text is empty and
    otherwise one more than the number of spaces. *)
Theorem words_of_normalized (s : jsstring) :
  words (stats (trim (collapseSpaces s)))
  = match trim (collapseSpaces s) with
    | [] => 0
    | _ :: _ => S (length (List.filter isSpace (trim (collapseSpaces s))))
    end.
Proof.
  rewrite StatsFacts.words_untrimmed.
  destruct (StatsFacts.trim_between (collapseSpaces s))
    as (front & back & Hs & _ & _).
  pose proof (collapse_from_singleSpaced s false) as Hsingle.
  fold (collapseSpaces s) in Hsingle. rewrite Hs in Hsingle.
  apply singleSpaced_from_suffix, singleSpaced_from_prefix in Hsingle.
  destruct (trim_ends (collapseSpaces s)) as [Hend Hhead].
  unfold segments.
  rewrite (segments_from_singleSpaced _ false true Hsingle Hend).
  destruct (trim (collapseSpaces s)) as [|c r]; [reflexivity|].
  rewrite Hhead. lia.
Qed.

End MarkupFacts.

(** * The handlers on a mounted surface and the toolbar: proofs *)


Lemma dom_answers (doc : Document) (l : list ToolbarButton) :
  forall m : gmap string bool,
    dom (answers doc m l)
    = dom m ∪ list_to_set (map (fun btn => command_name (command btn)) l).
Proof.
  unfold answers. induction l as [|btn r IH]; intros m; simpl.
  - rewrite (right_id_L ∅ (∪)). reflexivity.
  - rewrite IH, dom_insert_L.
    rewrite (comm_L (∪) {[command_name (command btn)]} (dom m)).
    rewrite <- (assoc_L (∪)). reflexivity.
Qed.

Lemma dom_answers_toggle (doc : Document) :
  dom (answers doc ∅ toggleButtons) = toggleNames.
Proof.
  rewrite dom_answers, dom_empty_L, (left_id_L ∅ (∪)).
  unfold toggleNames, toggleCommands. rewrite map_map. reflexivity.
Qed.

Lemma execsFocused_weaken (calls : list HostCall) :
  execsFocused false calls = true -> execsFocused true calls = true.
Proof.
  destruct calls as [|[| | |] r]; simpl; auto. discriminate.
Qed.

Lemma execsFocused_app (a b : list HostCall) :
  forall afterFocus,
    execsFocused afterFocus a = true ->
    execsFocused false b = true ->
    execsFocused afterFocus (a ++ b) = true.
Proof.
  induction a as [|call r IH]; intros afterFocus Ha Hb; simpl in *.
  - destruct afterFocus; [apply execsFocused_weaken|]; exact Hb.
  - destruct call; auto.
    apply andb_prop in Ha as [-> Hr]. simpl. auto.
Qed.

Section ToolbarFacts.

Variable execCommandEffect :
  Command + ColorCommand -> option jsstring -> jsstring -> jsstring.
Variable innerTextOf : jsstring -> jsstring.

Let exec_ := exec execCommandEffect innerTextOf.
Let handleColorPick_ := handleColorPick execCommandEffect innerTextOf.
Let typeInput_ := typeInput innerTextOf.
Let reset_ := reset innerTextOf.
Let dispatch_ := dispatch execCommandEffect innerTextOf.
Let dispatchAll_ := dispatchAll execCommandEffect innerTextOf.
Let afterCommand_ := afterCommand execCommandEffect innerTextOf.

Lemma exec_run (command : Command) (value : option jsstring) (st : State) :
  exec_ command value st
  = (Returned tt,
     match editorRef st with
     | Some ed =>
         afterCommand_ (inl command) (execArgument command value) ed st
     | None => st
     end).
Proof.
  unfold exec_, exec, bind, getEditor.
  destruct st as [[ed|] h p a b fg bg calls]; [|reflexivity].
  destruct command; cbn; rewrite <- app_assoc; reflexivity.
Qed.

Lemma handleColorPick_run (command : ColorCommand) (color : jsstring)
    (st : State) :
  handleColorPick_ command color st
  = (Returned tt,
     match editorRef st with
     | Some ed =>
         let st' := afterCommand_ (inr command) (Some color) ed st in
         match command with
         | foreColor => withColors st' color (background st)
         | backColor => withColors st' (foreground st) color
         end
     | None => st
     end).
Proof.
  unfold handleColorPick_, handleColorPick, bind, getEditor.
  destruct st as [[ed|] h p a b fg bg calls]; [|reflexivity].
  destruct command; cbn; rewrite <- app_assoc; reflexivity.
Qed.

Lemma typeInput_run (content : jsstring) (st : State) :
  typeInput_ content st
  = (Returned tt,
     match editorRef st with
     | Some _ =>
         mkState (Some (mkEditor content)) content (innerTextOf content)
           (activeCommands st) (blockType st) (foreground st) (background st)
           (hostCalls st)
     | None => st
     end).
Proof.
  destruct st as [[ed|] h p a b fg bg calls]; reflexivity.
Qed.

Lemma reset_run (st : State) :
  reset_ st
  = (Returned tt,
     match editorRef st with
     | Some _ => resetState innerTextOf (hostCalls st)
     | None => st
     end).
Proof.
  destruct st as [[ed|] h p a b fg bg calls]; reflexivity.
Qed.

Lemma handleSelection_run (doc : Document) (st : State) :
  handleSelection doc st
  = (Returned tt,
     withSnapshot
       (withCalls st
          (map CallQueryCommandState toggleCommands
           ++ [CallQueryCommandValue formatBlock]))
       (answers doc ∅ toggleButtons) (blockOf doc))
  \/ handleSelection doc st = (Returned tt, withSnapshot st ∅ (blockType st)).
Proof.
  destruct (inside_or_outside doc st) as [H | H].
  - left. apply handleSelection_inside. exact H.
  - right. apply handleSelection_outside. exact H.
Qed.

Lemma dispatch_returns (ev : UiEvent) (st : State) :
  fst (dispatch_ ev st) = Returned tt.
Proof.
  destruct ev; simpl.
  - apply (f_equal fst (exec_run _ _ st)).
  - apply (f_equal fst (exec_run _ _ st)).
  - apply (f_equal fst (handleColorPick_run _ _ st)).
  - apply (f_equal fst (exec_run _ _ st)).
  - apply (f_equal fst (reset_run st)).
  - apply (f_equal fst (typeInput_run _ st)).
  - apply handleSelection_returns.
Qed.

Lemma dispatchAll_cons (ev : UiEvent) (evs : list UiEvent) (st : State) :
  dispatchAll_ (ev :: evs) st = dispatchAll_ evs (snd (dispatch_ ev st)).
Proof.
  unfold dispatchAll_. simpl. unfold bind.
  pose proof (dispatch_returns ev st) as H. unfold dispatch_ in *.
  destruct (dispatch execCommandEffect innerTextOf ev st) as [o st'].
  simpl in *. subst o. reflexivity.
Qed.

(** Every rendered control makes one of the transitions. *)
Lemma dispatch_transition (ev : UiEvent) (st : State) :
  rendered ev ->
  transition execCommandEffect innerTextOf st (snd (dispatch_ ev st)).
Proof.
  intros Hev. destruct ev as [v | btn | c color | | | content | doc];
    unfold dispatch_; simpl.
  - change (exec execCommandEffect innerTextOf) with exec_.
    rewrite exec_run. destruct (editorRef st) as [ed|] eqn:Hed; simpl.
    + apply transition_command; [exact Hed|].
      exists v. split; [exact Hev | reflexivity].
    + constructor.
  - change (exec execCommandEffect innerTextOf) with exec_.
    rewrite exec_run. destruct (editorRef st) as [ed|] eqn:Hed; simpl.
    + apply transition_command; [exact Hed|].
      simpl in Hev.
      repeat (destruct Hev as [<- | Hev]; [reflexivity|]). destruct Hev.
    + constructor.
  - change (handleColorPick execCommandEffect innerTextOf)
      with handleColorPick_.
    rewrite handleColorPick_run.
    destruct (editorRef st) as [ed|] eqn:Hed; simpl; [|constructor].
    destruct c; [apply transition_foreground | apply transition_background];
      exact Hed.
  - change (exec execCommandEffect innerTextOf) with exec_.
    rewrite exec_run. destruct (editorRef st) as [ed|] eqn:Hed; simpl.
    + apply transition_command; [exact Hed | reflexivity].
    + constructor.
  - change (reset innerTextOf) with reset_. rewrite reset_run.
    destruct (editorRef st) as [ed|] eqn:Hed; simpl; [|constructor].
    apply (transition_reset _ _ _ ed). exact Hed.
  - change (typeInput innerTextOf) with typeInput_. rewrite typeInput_run.
    destruct (editorRef st) as [ed|] eqn:Hed; simpl; [|constructor].
    apply (transition_input _ _ _ ed). exact Hed.
  - destruct (inside_or_outside doc st) as [H | H].
    + rewrite (handleSelection_inside doc st H).
      destruct H as (ed & _ & _ & Hed & _).
      apply (transition_selected _ _ _ ed). exact Hed.
    + rewrite (handleSelection_outside doc st H). apply transition_deselected.
Qed.

(** A property of states that every transition keeps holds after any
    sequence of rendered controls, none of which throws. *)
Lemma dispatchAll_invariant (P : State -> Prop) :
  (forall st st',
     transition execCommandEffect innerTextOf st st' -> P st -> P st') ->
  forall evs st,
    Forall rendered evs -> P st ->
    fst (dispatchAll_ evs st) = Returned tt /\ P (snd (dispatchAll_ evs st)).
Proof.
  intros Hstep evs. induction evs as [|ev r IH]; intros st Hevs HP.
  - split; [reflexivity | exact HP].
  - rewrite dispatchAll_cons. inversion Hevs; subst.
    apply IH; [assumption|].
    apply (Hstep st); [apply dispatch_transition|]; assumption.
Qed.

(** X10: on a mounted surface [exec] focuses the surface, calls the
    engine once with the command and its value ([formatBlock] without a
    value gets ["p"]), and reads [html] and [plain] back from the surface;
    the selection snapshot and the colors stay. *)
Theorem exec_mounted (command : Command) (value : option jsstring)
    (st : State) (ed : Editor) :
  editorRef st = Some ed ->
  exec_ command value st
  = (Returned tt,
     let arg := execArgument command value in
     let content := execCommandEffect (inl command) arg (innerHTML ed) in
     mkState (Some (mkEditor content)) content (innerTextOf content)
       (activeCommands st) (blockType st) (foreground st) (background st)
       (hostCalls st ++ [CallFocus; CallExecCommand (inl command) arg])).
Proof. intros Hed. rewrite exec_run, Hed. reflexivity. Qed.

(** X11: on a mounted surface [handleColorPick] focuses the surface, calls
    the engine once with the color command and the color, reads [html] and
    [plain] back, and stores the color as the text color for [foreColor]
    and as the background color for [backColor]. *)
Theorem handleColorPick_mounted (command : ColorCommand) (color : jsstring)
    (st : State) (ed : Editor) :
  editorRef st = Some ed ->
  handleColorPick_ command color st
  = (Returned tt,
     let content := execCommandEffect (inr command) (Some color) (innerHTML ed) in
     mkState (Some (mkEditor content)) content (innerTextOf content)
       (activeCommands st) (blockType st)
       (match command with foreColor => color | backColor => foreground st end)
       (match command with foreColor => background st | backColor => color end)
       (hostCalls st ++ [CallFocus; CallExecCommand (inr command) (Some color)])).
Proof.
  intros Hed. rewrite handleColorPick_run, Hed. destruct command; reflexivity.
Qed.

(** X12: after any sequence of rendered controls on the mounted component,
    none of which throws, the surface is still mounted, [html] is the
    content of the surface, and [plain] is the rendered text of that content
    or still the starter plain text beside the starter markup. *)
Theorem snapshot_follows_surface (evs : list UiEvent) :
  Forall rendered evs ->
  fst (dispatchAll_ evs mountedState) = Returned tt
  /\ editorRef (snd (dispatchAll_ evs mountedState))
     = Some (mkEditor (html (snd (dispatchAll_ evs mountedState))))
  /\ (plain (snd (dispatchAll_ evs mountedState))
      = innerTextOf (html (snd (dispatchAll_ evs mountedState)))
      \/ (html (snd (dispatchAll_ evs mountedState)) = DEFAULT_MARKUP
          /\ plain (snd (dispatchAll_ evs mountedState)) = DEFAULT_PLAIN)).
Proof.
  intros Hevs.
  apply (dispatchAll_invariant
    (fun st => editorRef st = Some (mkEditor (html st))
               /\ (plain st = innerTextOf (html st)
                   \/ (html st = DEFAULT_MARKUP /\ plain st = DEFAULT_PLAIN))));
    [|exact Hevs | split; [reflexivity | right; split; reflexivity]].
  intros st st' Hstep [Hed Hplain].
  destruct Hstep; simpl; auto.
Qed.


(** X14: after any sequence of rendered controls on the mounted component,
    [activeCommands] is empty or has exactly the ten toggle commands as
    keys; [removeFormat] and [formatBlock] are never active. *)
Theorem activeCommands_keys (evs : list UiEvent) :
  Forall rendered evs ->
  (activeCommands (snd (dispatchAll_ evs mountedState)) = ∅
   \/ dom (activeCommands (snd (dispatchAll_ evs mountedState))) = toggleNames)
  /\ isActive (snd (dispatchAll_ evs mountedState)) removeFormat = false
  /\ isActive (snd (dispatchAll_ evs mountedState)) formatBlock = false.
Proof.
  intros Hevs.
  assert (H : activeCommands (snd (dispatchAll_ evs mountedState)) = ∅
              \/ dom (activeCommands (snd (dispatchAll_ evs mountedState)))
                 = toggleNames).
  { apply (dispatchAll_invariant
      (fun st => activeCommands st = ∅ \/ dom (activeCommands st) = toggleNames));
      [|exact Hevs | left; reflexivity].
    intros st st' Hstep Hst.
    destruct Hstep; simpl; auto using dom_answers_toggle. }
  split; [exact H|].
  assert (Hout : forall c, command_name c ∉ toggleNames ->
            isActive (snd (dispatchAll_ evs mountedState)) c = false).
  { intros c Hc. unfold isActive. destruct H as [-> | H].
    - rewrite lookup_empty. reflexivity.
    - rewrite <- H in Hc. apply not_elem_of_dom in Hc. rewrite Hc. reflexivity. }
  split; apply Hout; unfold toggleNames; rewrite elem_of_list_to_set; simpl;
    rewrite !elem_of_cons, elem_of_nil; intuition discriminate.
Qed.

(** X15: in the trace of any sequence of rendered controls on the mounted
    component, every [execCommand] comes right after a [focus] of the
    surface. *)
Theorem execCommand_after_focus (evs : list UiEvent) :
  Forall rendered evs ->
  execsFocused false (hostCalls (snd (dispatchAll_ evs mountedState))) = true.
Proof.
  intros Hevs.
  apply (dispatchAll_invariant
    (fun st => execsFocused false (hostCalls st) = true));
    [|exact Hevs | reflexivity].
  intros st st' Hstep Hst.
  destruct Hstep; simpl; auto; apply execsFocused_app; auto.
Qed.

(** X16: the rendered controls call [execCommand] for [formatBlock] only
    with an option value between [<] and [>], so that the ["p"] that [exec]
    falls back on is never passed; for the color commands with a color; for
    every other command without a value. *)
Theorem execCommand_arguments (evs : list UiEvent) :
  Forall rendered evs ->
  Forall fromToolbar (hostCalls (snd (dispatchAll_ evs mountedState))).
Proof.
  intros Hevs.
  apply (dispatchAll_invariant (fun st => Forall fromToolbar (hostCalls st)));
    [|exact Hevs | constructor].
  intros st st' Hstep Hst.
  destruct Hstep; simpl; auto; apply Forall_app; split; auto.
  - repeat constructor. assumption.
  - repeat constructor. exists color. reflexivity.
  - repeat constructor. exists color. reflexivity.
  - repeat constructor.
Qed.



End ToolbarFacts.

Lemma sampleSession_rendered : Forall rendered sampleSession.
Proof. repeat constructor; simpl; tauto. Defined.

Lemma exec_mounted_witness :
  editorRef headingState = Some (mkEditor (js "<h1>Title</h1>"))
  /\ hostCalls (snd (exec keepContent rawText formatBlock None headingState))
     = [CallFocus; CallExecCommand (inl formatBlock) (Some (js "p"))].
Proof.
  split; [reflexivity|].
  rewrite (exec_mounted keepContent rawText formatBlock None headingState
             (mkEditor (js "<h1>Title</h1>")) eq_refl).
  reflexivity.
Defined.

Lemma handleColorPick_mounted_witness :
  editorRef headingState = Some (mkEditor (js "<h1>Title</h1>"))
  /\ background
       (snd (handleColorPick keepContent rawText backColor (js "#00ff00")
               headingState))
     = js "#00ff00".
Proof.
  split; [reflexivity|].
  rewrite (handleColorPick_mounted keepContent rawText backColor (js "#00ff00")
             headingState (mkEditor (js "<h1>Title</h1>")) eq_refl).
  reflexivity.
Defined.

Lemma snapshot_follows_surface_witness :
  Forall rendered sampleSession
  /\ editorRef (snd (dispatchAll keepContent rawText sampleSession mountedState))
     = Some (mkEditor
               (html (snd (dispatchAll keepContent rawText sampleSession
                             mountedState)))).
Proof.
  split; [exact sampleSession_rendered|].
  exact (proj1 (proj2 (snapshot_follows_surface keepContent rawText
                         sampleSession sampleSession_rendered))).
Defined.


Lemma activeCommands_keys_witness :
  Forall rendered sampleSession
  /\ isActive (snd (dispatchAll keepContent rawText sampleSession mountedState))
       removeFormat = false.
Proof.
  split; [exact sampleSession_rendered|].
  exact (proj1 (proj2 (activeCommands_keys keepContent rawText sampleSession
                         sampleSession_rendered))).
Defined.

Lemma execCommand_after_focus_witness :
  Forall rendered sampleSession
  /\ execsFocused false
       (hostCalls (snd (dispatchAll keepContent rawText sampleSession
                          mountedState))) = true.
Proof.
  split; [exact sampleSession_rendered|].
  exact (execCommand_after_focus keepContent rawText sampleSession
           sampleSession_rendered).
Defined.

Lemma execCommand_arguments_witness :
  Forall rendered sampleSession
  /\ Forall fromToolbar
       (hostCalls (snd (dispatchAll keepContent rawText sampleSession
                          mountedState))).
Proof.
  split; [exact sampleSession_rendered|].
  exact (execCommand_arguments keepContent rawText sampleSession
           sampleSession_rendered).
Defined.


(** ** The selection handler and the block selector *)

Lemma removeAngleBrackets_wrapped (v : jsstring) :
  removeAngleBrackets ([60%N] ++ v ++ [62%N]) = removeAngleBrackets v.
Proof.
  unfold removeAngleBrackets. simpl. rewrite List.filter_app. simpl.
  apply app_nil_r.
Qed.

(** X18: whatever the case mapping of the runtime, every value of
    [blockOptions] holds no [<] and no [>], is in lower case, is not empty
    and is not [body]; and for any such value, when the host reports it,
    bare or between [<] and [>] as the selector passes it, a selection
    change in the surface stores that very value as the block type. *)
Theorem block_option_round_trip (unicodeLower : jsstring -> jsstring) :
  Forall (fun option =>
            removeAngleBrackets (snd option) = snd option
            /\ Unicode.toLowerCase unicodeLower (snd option) = snd option
            /\ snd option <> [] /\ snd option <> js "body")
    blockOptions
  /\ forall (doc : Document) (st : State) (v : jsstring),
       insideSurface doc st ->
       removeAngleBrackets v = v ->
       Unicode.toLowerCase unicodeLower v = v ->
       v <> [] -> v <> js "body" ->
       queryCommandValue doc formatBlock = Returned ([60%N] ++ v ++ [62%N])
       \/ queryCommandValue doc formatBlock = Returned v ->
       blockType (snd (Unicode.handleSelection unicodeLower doc st)) = v.
Proof.
  split.
  - repeat constructor; discriminate.
  - intros doc st v Hin Hangle Hlower Hne Hbody Hq.
    rewrite (unicode_handleSelection_inside _ doc st Hin). simpl.
    unfold Unicode.blockOf, Unicode.derivedBlock.
    destruct Hq as [-> | ->]; cbv zeta.
    + change (truthy ([60%N] ++ v ++ [62%N])) with true. cbv iota.
      rewrite removeAngleBrackets_wrapped, Hangle, Hlower.
      case_decide; [contradiction | reflexivity].
    + destruct v as [|c r]; [congruence|].
      change (truthy (c :: r)) with true. cbv iota.
      rewrite Hangle, Hlower.
      case_decide; [contradiction | reflexivity].
Qed.

Lemma block_option_round_trip_witness :
  insideSurface (selectionInside (Returned (js "<h2>"))) headingState
  /\ blockType
       (snd (Unicode.handleSelection asciiLowerCase
               (selectionInside (Returned (js "<h2>"))) headingState))
     = js "h2".
Proof.
  split; [apply headingState_inside|].
  apply (proj2 (block_option_round_trip asciiLowerCase)
           (selectionInside (Returned (js "<h2>"))) headingState (js "h2")
           (headingState_inside _)).
  - reflexivity.
  - reflexivity.
  - discriminate.
  - discriminate.
  - left. reflexivity.
Defined.

(** X19: a selection change leaves the surface, [html] and [plain] as they
    were, and adds only queries to the trace of host calls: it never
    focuses the surface or runs a command. *)
Theorem handleSelection_frame (doc : Document) (st : State) :
  editorRef (snd (handleSelection doc st)) = editorRef st
  /\ html (snd (handleSelection doc st)) = html st
  /\ plain (snd (handleSelection doc st)) = plain st
  /\ exists queries,
       hostCalls (snd (handleSelection doc st)) = hostCalls st ++ queries
       /\ forallb isQuery queries = true.
Proof.
  destruct (inside_or_outside doc st) as [H | H].
  - rewrite (handleSelection_inside doc st H). simpl.
    repeat split. eexists. split; reflexivity.
  - rewrite (handleSelection_outside doc st H). simpl.
    repeat split. exists []. rewrite app_nil_r. split; reflexivity.
Qed.

(** X20: with the selection in the surface, the snapshot stored is made of
    the host's answers alone: whatever [activeCommands] and the block type
    were before, [activeCommands] has exactly the ten toggle commands as
    keys and two states end with the same snapshot. *)
Theorem handleSelection_replaces_snapshot (doc : Document) (st1 st2 : State) :
  insideSurface doc st1 ->
  insideSurface doc st2 ->
  dom (activeCommands (snd (handleSelection doc st1))) = toggleNames
  /\ activeCommands (snd (handleSelection doc st1))
     = activeCommands (snd (handleSelection doc st2))
  /\ blockType (snd (handleSelection doc st1))
     = blockType (snd (handleSelection doc st2)).
Proof.
  intros H1 H2.
  rewrite (handleSelection_inside doc st1 H1), (handleSelection_inside doc st2 H2).
  simpl. split; [apply dom_answers_toggle | split; reflexivity].
Qed.

Lemma handleSelection_replaces_snapshot_witness :
  insideSurface (selectionInside Thrown) headingState
  /\ insideSurface (selectionInside Thrown) mountedState
  /\ activeCommands (snd (handleSelection (selectionInside Thrown) headingState))
     = activeCommands (snd (handleSelection (selectionInside Thrown) mountedState)).
Proof.
  assert (H2 : insideSurface (selectionInside Thrown) mountedState)
    by (do 3 eexists; repeat split; reflexivity).
  split; [apply headingState_inside|]. split; [exact H2|].
  exact (proj1 (proj2 (handleSelection_replaces_snapshot (selectionInside Thrown)
                         headingState mountedState (headingState_inside _) H2))).
Defined.
